(** * Tenant rent application: due dates, payment status and the history table

    A shallow embedding of [app2.py]: the due-date calculator
    [calculate_due_date], the payment-status classifier [get_payment_status],
    the history loader [load_history] and the parts of [main] that derive the
    due date, recompute the status column, count the statuses and delete a row.

    The first part of the file holds the model, the second part the facts
    proved about it. *)

From Stdlib Require Import ZArith Lia Bool String Ascii List.
From stdpp Require Import base option list strings.

Open Scope Z_scope.

(* ================================================================== *)
(** * Part I: the model *)
(* ================================================================== *)

(** ** Exceptions

    A Python call either returns a value or raises.  [try_except] is the
    bare [try: ... except: ...] of the source, which catches everything. *)

Inductive exn : Set :=
| KeyError
| ValueError
| OverflowError
| OutOfBoundsDatetime
| OutOfBoundsTimedelta.

Inductive result (A : Type) : Type :=
| Ok (a : A)
| Raise (e : exn).

Arguments Ok {A} a.
Arguments Raise {A} e.

#[export] Instance result_ret : MRet result := fun A a => Ok a.

#[export] Instance result_bind : MBind result := fun A B f m =>
  match m with
  | Ok a => f a
  | Raise e => Raise e
  end.

Definition try_except {A} (body handler : result A) : result A :=
  match body with
  | Ok a => Ok a
  | Raise _ => handler
  end.

Definition returns {A} (m : result A) : Prop := exists a, m = Ok a.

(** ** The civil calendar

    Dates are those of Python's [datetime.date]: the proleptic Gregorian
    calendar, years [MINYEAR] to [MAXYEAR].  [toordinal] and [fromordinal]
    follow [_ymd2ord] and [_ord2ymd] of the [datetime] module: day 1 is
    0001-01-01. *)

Module Calendar.

Record date : Set := mkdate { year : Z; month : Z; day : Z }.

Definition MINYEAR : Z := 1.
Definition MAXYEAR : Z := 9999.
Definition MAXORDINAL : Z := 3652059.

Definition is_leap (y : Z) : bool :=
  (y mod 4 =? 0) && (negb (y mod 100 =? 0) || (y mod 400 =? 0)).

Definition DAYS_IN_MONTH (m : Z) : Z :=
  match m with
  | 2 => 28
  | 4 | 6 | 9 | 11 => 30
  | _ => 31
  end.

Definition DAYS_BEFORE_MONTH (m : Z) : Z :=
  match m with
  | 1 => 0 | 2 => 31 | 3 => 59 | 4 => 90 | 5 => 120 | 6 => 151
  | 7 => 181 | 8 => 212 | 9 => 243 | 10 => 273 | 11 => 304 | 12 => 334
  | _ => 0
  end.

Definition days_in_month (y m : Z) : Z :=
  if (m =? 2) && is_leap y then 29 else DAYS_IN_MONTH m.

Definition days_before_year (y : Z) : Z :=
  let y1 := y - 1 in y1 * 365 + y1 / 4 - y1 / 100 + y1 / 400.

Definition days_before_month (y m : Z) : Z :=
  DAYS_BEFORE_MONTH m + (if (2 <? m) && is_leap y then 1 else 0).

(** A date in the civil calendar: month and day fit together. *)
Definition well_formed (d : date) : bool :=
  (1 <=? month d) && (month d <=? 12) &&
  (1 <=? day d) && (day d <=? days_in_month (year d) (month d)).

(** A date that [datetime.date] can hold. *)
Definition valid (d : date) : bool :=
  (MINYEAR <=? year d) && (year d <=? MAXYEAR) && well_formed d.

Definition toordinal (d : date) : Z :=
  days_before_year (year d) + days_before_month (year d) (month d) + day d.

Definition DI400Y : Z := 146097.
Definition DI100Y : Z := 36524.
Definition DI4Y : Z := 1461.

Definition fromordinal (ord : Z) : date :=
  let n := ord - 1 in
  let n400 := n / DI400Y in
  let n := n mod DI400Y in
  let y := n400 * 400 + 1 in
  let n100 := n / DI100Y in
  let n := n mod DI100Y in
  let n4 := n / DI4Y in
  let n := n mod DI4Y in
  let n1 := n / 365 in
  let n := n mod 365 in
  let y := y + n100 * 100 + n4 * 4 + n1 in
  if (n1 =? 4) || (n100 =? 4) then mkdate (y - 1) 12 31
  else
    let leapyear := (n1 =? 3) && (negb (n4 =? 24) || (n100 =? 3)) in
    let m := Z.shiftr (n + 50) 5 in
    let preceding :=
      DAYS_BEFORE_MONTH m + (if (2 <? m) && leapyear then 1 else 0) in
    if n <? preceding then
      let m := m - 1 in
      let preceding :=
        preceding - (DAYS_IN_MONTH m + (if (m =? 2) && leapyear then 1 else 0)) in
      mkdate y m (n - preceding + 1)
    else mkdate y m (n - preceding + 1).

(** [timedelta(days=...)]: the magnitude is limited. *)
Definition timedelta (days : Z) : result Z :=
  if Z.abs days <=? 999999999 then Ok days else Raise OverflowError.

(** [date + timedelta]: the sum has to stay a date. *)
Definition date_add (d : date) (days : Z) : result date :=
  let o := toordinal d + days in
  if (0 <? o) && (o <=? MAXORDINAL) then Ok (fromordinal o)
  else Raise OverflowError.

(** The calendar read without arithmetic: the day after and the day before
    a date, and a date moved by a number of days, one day at a time. *)
Definition next_day (d : date) : date :=
  if day d <? days_in_month (year d) (month d)
  then mkdate (year d) (month d) (day d + 1)
  else if month d <? 12 then mkdate (year d) (month d + 1) 1
  else mkdate (year d + 1) 1 1.

Definition prev_day (d : date) : date :=
  if 1 <? day d then mkdate (year d) (month d) (day d - 1)
  else if 1 <? month d
  then mkdate (year d) (month d - 1) (days_in_month (year d) (month d - 1))
  else mkdate (year d - 1) 12 31.

(** The order of the calendar: by year, then month, then day. *)
Definition date_lt (a b : date) : Prop :=
  year a < year b \/
  (year a = year b /\
   (month a < month b \/ (month a = month b /\ day a < day b))).

Definition advance (d : date) (days : Z) : date :=
  if 0 <=? days then Z.iter days next_day d
  else Z.iter (- days) prev_day d.

(** [strftime("%Y-%m-%d")]: four, two and two decimal digits.  That is
    what [str(date)] writes for every year, and what [date.strftime] writes
    from the year 1000 on; for an earlier year the C library decides whether
    [%Y] is padded, and the statements about [date.strftime] keep to the
    years from 1000. *)
Definition digit (n : Z) : ascii := ascii_of_nat (48 + Z.to_nat (n mod 10)).

Definition pad2 (n : Z) : string :=
  String (digit (n / 10)) (String (digit n) EmptyString).

Definition pad4 (n : Z) : string :=
  String (digit (n / 1000)) (String (digit (n / 100)) (pad2 n)).

Definition strftime (d : date) : string :=
  (pad4 (year d) ++ "-" ++ pad2 (month d) ++ "-" ++ pad2 (day d))%string.

End Calendar.

Export Calendar.

(** ** Cell values

    What a cell of the history table, or an argument of the two date
    functions, can be: [NaN] (what [read_csv] gives for an empty cell, and
    what [pd.isna] recognises), a text, or a whole number. *)

Inductive value : Set :=
| NaN
| Str (s : string)
| Num (n : Z).

#[export] Instance value_eq_dec : EqDecision value.
Proof. solve_decision. Defined.

Definition isna (v : value) : bool :=
  match v with
  | NaN => true
  | _ => false
  end.

(** Python's [==] between a cell and a text. *)
Definition eq_text (v : value) (s : string) : bool :=
  match v with
  | Str t => String.eqb t s
  | _ => false
  end.

(** ** Timestamps

    A pandas [Timestamp] is a count of nanoseconds since 1970-01-01 held in
    64 bits, a [Timedelta] a count of nanoseconds.  Arithmetic that leaves
    the 64 bits raises. *)

Definition Timestamp : Set := Z.
Definition Timedelta : Set := Z.

Definition NS_PER_DAY : Z := 86400000000000.
Definition INT64_MAX : Z := 9223372036854775807.
Definition EPOCH_ORDINAL : Z := 719163.

Definition in_bounds (v : Z) : bool := (- INT64_MAX <=? v) && (v <=? INT64_MAX).

(** [pd.to_datetime] of a [datetime.date]: midnight of that day. *)
Definition midnight (d : date) : Z := (toordinal d - EPOCH_ORDINAL) * NS_PER_DAY.

Definition Timestamp_of_date (d : date) : result Timestamp :=
  if in_bounds (midnight d) then Ok (midnight d)
  else Raise OutOfBoundsDatetime.

(** The calendar day a timestamp falls on. *)
Definition Timestamp_date (t : Timestamp) : date :=
  fromordinal (t / NS_PER_DAY + EPOCH_ORDINAL).

Definition Timestamp_strftime (t : Timestamp) : string :=
  strftime (Timestamp_date t).

(** [Timestamp + timedelta(days)] *)
Definition Timestamp_add (t : Timestamp) (days : Z) : result Timestamp :=
  let nanos := days * NS_PER_DAY in
  if in_bounds nanos then
    if in_bounds (t + nanos) then Ok (t + nanos)
    else Raise OutOfBoundsDatetime
  else Raise OutOfBoundsTimedelta.

(** [Timestamp - Timestamp] *)
Definition Timestamp_sub (a b : Timestamp) : result Timedelta :=
  if in_bounds (a - b) then Ok (a - b) else Raise OutOfBoundsTimedelta.

(** [Timedelta.days]: whole days, rounded down. *)
Definition Timedelta_days (td : Timedelta) : Z := td / NS_PER_DAY.

(** [NaT], "not a time", is pandas' marker for a missing timestamp and for
    a missing timedelta alike.  Nothing done with it raises, except
    formatting: a comparison with [NaT] is [False], a sum or a difference
    with [NaT] is [NaT], its [days] are [nan], and a comparison with [nan]
    is [False] again. *)
Inductive or_NaT (A : Set) : Set :=
| NaT
| Scalar (a : A).

Arguments NaT {A}.
Arguments Scalar {A} a.

(** [due < today] and [due == today], where [today] is a timestamp *)
Definition datetime_lt (a : or_NaT Timestamp) (b : Timestamp) : bool :=
  match a with
  | NaT => false
  | Scalar t => t <? b
  end.

Definition datetime_eq (a : or_NaT Timestamp) (b : Timestamp) : bool :=
  match a with
  | NaT => false
  | Scalar t => t =? b
  end.

(** [prev_date + timedelta(days)] *)
Definition datetime_add (a : or_NaT Timestamp) (days : Z)
  : result (or_NaT Timestamp) :=
  match a with
  | NaT => Ok NaT
  | Scalar t => sum ← Timestamp_add t days; Ok (Scalar sum)
  end.

(** [due - today] *)
Definition datetime_sub (a : or_NaT Timestamp) (b : Timestamp)
  : result (or_NaT Timedelta) :=
  match a with
  | NaT => Ok NaT
  | Scalar t => diff ← Timestamp_sub t b; Ok (Scalar diff)
  end.

(** [due_date.strftime("%Y-%m-%d")]: [NaT] does not support it. *)
Definition datetime_strftime (a : or_NaT Timestamp) : result string :=
  match a with
  | NaT => Raise ValueError
  | Scalar t => Ok (Timestamp_strftime t)
  end.

(** [.days] of a difference: a whole number, or [nan] ([None]). *)
Definition days (diff : or_NaT Timedelta) : option Z :=
  match diff with
  | NaT => None
  | Scalar td => Some (Timedelta_days td)
  end.

(** [x <= n] for a number that may be [nan] *)
Definition number_le (x : option Z) (n : Z) : bool :=
  match x with
  | None => false
  | Some d => d <=? n
  end.

(** [pd.to_datetime] on a cell is pandas' parser; the functions of the
    application are written against this interface.  A parser returns a
    timestamp within the 64 bits, or [NaT], or raises. *)
Class Parser : Type := {
  to_datetime : value -> result (or_NaT Timestamp);
  to_datetime_bounds :
    forall v t, to_datetime v = Ok (Scalar t) -> in_bounds t = true
}.

(** ** The ISO parser

    An instance of the interface: texts of the shape YYYY-MM-DD, which is
    what the application itself writes, whole numbers, which pandas reads
    as nanoseconds, and what pandas reads as [NaT]: a missing cell, the
    empty text, the texts of [nat_strings] and the least 64-bit number.
    Every other text raises here. *)

Definition digit_value (c : ascii) : option Z :=
  let n := Z.of_nat (nat_of_ascii c) in
  if (48 <=? n) && (n <=? 57) then Some (n - 48) else None.

Definition number2 (a b : ascii) : option Z :=
  x ← digit_value a; y ← digit_value b; Some (10 * x + y).

Definition number4 (a b c d : ascii) : option Z :=
  x ← number2 a b; y ← number2 c d; Some (100 * x + y).

Definition parse_ymd (s : string) : option date :=
  match s with
  | String y1 (String y2 (String y3 (String y4 (String "-"
      (String m1 (String m2 (String "-"
        (String d1 (String d2 EmptyString))))))))) =>
      y ← number4 y1 y2 y3 y4; m ← number2 m1 m2; d ← number2 d1 d2;
      let r := mkdate y m d in
      if valid r then Some r else None
  | _ => None
  end.

Definition nat_strings : list string :=
  ["NaT"; "nat"; "NAT"; "nan"; "NaN"; "NAN"]%string.

Definition iso_to_datetime (v : value) : result (or_NaT Timestamp) :=
  match v with
  | NaN => Ok NaT
  | Str s =>
      if String.eqb s "" || existsb (String.eqb s) nat_strings then Ok NaT
      else
        match parse_ymd s with
        | Some d => t ← Timestamp_of_date d; Ok (Scalar t)
        | None => Raise ValueError
        end
  | Num n =>
      if n =? - INT64_MAX - 1 then Ok NaT
      else if in_bounds n then Ok (Scalar n)
      else Raise OutOfBoundsDatetime
  end.

Lemma iso_to_datetime_bounds v t :
  iso_to_datetime v = Ok (Scalar t) -> in_bounds t = true.
Proof.
  destruct v as [|s|n]; cbn [iso_to_datetime]; [discriminate| |].
  - destruct (_ || _); [discriminate|].
    destruct (parse_ymd s) as [d|]; [|discriminate].
    unfold Timestamp_of_date.
    destruct (in_bounds (midnight d)) eqn:E; [|discriminate].
    cbn [mbind result_bind]. intros [= <-]. exact E.
  - destruct (n =? _); [discriminate|].
    destruct (in_bounds n) eqn:E; [|discriminate]. intros [= <-]. exact E.
Qed.

#[export] Instance iso_parser : Parser := {
  to_datetime := iso_to_datetime;
  to_datetime_bounds := iso_to_datetime_bounds
}.

(** ** The two date functions of the application *)

Section Application.

Context `{Parser}.

(** [calculate_due_date(previous_date, frequency_days)] *)
Definition calculate_due_date (previous_date : value) (frequency_days : Z)
  : result string :=
  if isna previous_date || eq_text previous_date "" then Ok ""%string
  else
    try_except
      (prev_date ← to_datetime previous_date;
       delta ← timedelta frequency_days;
       due_date ← datetime_add prev_date delta;
       datetime_strftime due_date)
      (Ok ""%string).

(** the default [frequency_days=30] *)
Definition calculate_due_date_default (previous_date : value) : result string :=
  calculate_due_date previous_date 30.

(** [get_payment_status(due_date)]; [now] is the date [datetime.now().date()]
    gives when the function runs. *)
Definition get_payment_status (now : date) (due_date : value) : result string :=
  if isna due_date || eq_text due_date "" then Ok "Unknown"%string
  else
    try_except
      (due ← to_datetime due_date;
       today ← Timestamp_of_date now;
       if datetime_lt due today then Ok "Overdue"%string
       else if datetime_eq due today then Ok "Due Today"%string
       else
         diff ← datetime_sub due today;
         if number_le (days diff) 7 then Ok "Due Soon"%string
         else Ok "Upcoming"%string)
      (Ok "Unknown"%string).

End Application.

(** ** The history table

    A pandas [DataFrame], held by column as pandas holds it: the row labels
    ([index]) and, for every column name, the cells of that column in row
    order.  [read_csv] and [reset_index(drop=True)] give the labels
    0, 1, 2, ... *)

Record DataFrame : Set := mkDataFrame {
  index : list Z;
  columns : list (string * list value)
}.

Definition len (df : DataFrame) : nat := length (index df).

Definition RangeIndex (n : nat) : list Z := seqZ 0 (Z.of_nat n).

Fixpoint lookup_column (col : string) (cols : list (string * list value))
  : option (list value) :=
  match cols with
  | [] => None
  | (c, cells) :: rest =>
      if String.eqb c col then Some cells else lookup_column col rest
  end.

Fixpoint set_column (col : string) (cells : list value)
  (cols : list (string * list value)) : list (string * list value) :=
  match cols with
  | [] => [(col, cells)]
  | (c, old) :: rest =>
      if String.eqb c col then (c, cells) :: rest
      else (c, old) :: set_column col cells rest
  end.

(** [col in df.columns] *)
Definition has_column (df : DataFrame) (col : string) : bool :=
  match lookup_column col (columns df) with
  | Some _ => true
  | None => false
  end.

(** [df[col]] *)
Definition getitem (df : DataFrame) (col : string) : result (list value) :=
  match lookup_column col (columns df) with
  | Some cells => Ok cells
  | None => Raise KeyError
  end.

(** [df[col] = series], the series carrying the labels of [df] *)
Definition setitem (df : DataFrame) (col : string) (cells : list value)
  : DataFrame :=
  mkDataFrame (index df) (set_column col cells (columns df)).

(** [df[col] = v] for one value [v]: the whole column takes it *)
Definition setitem_scalar (df : DataFrame) (col : string) (v : value)
  : DataFrame :=
  setitem df col (replicate (len df) v).

(** [series.apply(f)] *)
Definition apply {A B} (f : A -> result B) (cells : list A) : result (list B) :=
  mapM f cells.

(** [df.empty]: no row or no column *)
Definition empty (df : DataFrame) : bool :=
  (len df =? 0)%nat || (length (columns df) =? 0)%nat.

(** [df[cols]] for column names that are all there *)
Definition select (df : DataFrame) (cols : list string) : result DataFrame :=
  picked ← mapM (fun col => cells ← getitem df col; Ok (col, cells)) cols;
  Ok (mkDataFrame (index df) picked).

(** The cell of column [col] in the row at position [i], and that row. *)
Definition cell (df : DataFrame) (col : string) (i : nat) : option value :=
  cells ← lookup_column col (columns df); cells !! i.

Definition row (df : DataFrame) (i : nat) : list (string * option value) :=
  (fun c => (c.1, c.2 !! i)) <$> columns df.

(** Every column has one cell per row label, and no name is used twice. *)
Definition table (df : DataFrame) : Prop :=
  Forall (fun c => length c.2 = len df) (columns df) /\
  NoDup (columns df).*1.

(** Keep the entries of [l] where [mask] is set. *)
Fixpoint keep {A} (mask : list bool) (l : list A) : list A :=
  match mask, l with
  | b :: mask, x :: l => if b then x :: keep mask l else keep mask l
  | _, _ => []
  end.

(** [df.drop(index=label)]: the rows with that label go; a label that is
    not there raises. *)
Definition drop (df : DataFrame) (label : Z) : result DataFrame :=
  if existsb (Z.eqb label) (index df) then
    let mask := (fun l => negb (l =? label)) <$> index df in
    Ok (mkDataFrame (keep mask (index df))
          ((fun c => (c.1, keep mask c.2)) <$> columns df))
  else Raise KeyError.

(** [df.reset_index(drop=True)] *)
Definition reset_index (df : DataFrame) : DataFrame :=
  mkDataFrame (RangeIndex (len df)) (columns df).

(** [series.value_counts()]: how often each value occurs, missing values
    left out.  The entries stand in the order of first occurrence; pandas
    orders them by count, which [get] does not observe. *)
Definition occurrences (v : value) (cells : list value) : nat :=
  length (filter (fun x => x = v) cells).

Definition value_counts (cells : list value) : list (value * nat) :=
  let present := filter (fun x => isna x = false) cells in
  (fun v => (v, occurrences v present)) <$> remove_dups present.

(** [counts.get(key, default)] *)
Fixpoint get (counts : list (value * nat)) (key : value) (default : nat) : nat :=
  match counts with
  | [] => default
  | (v, n) :: rest => if decide (v = key) then n else get rest key default
  end.

(** ** [load_history]

    [stored] is what [read_csv] gives for the history file, or [None] when
    the file does not exist. *)

Definition required_cols : list string :=
  ["BHK"; "Size"; "Bathroom"; "Furnishing Status"; "Tenant Preferred";
   "City"; "Point of Contact"; "Area Locality"; "Posted On"; "Area Type";
   "Floor"; "Predicted Rent";
   "Tenant Name"; "Telephone Number"; "Previous Payment Date";
   "Next Payment Due Date"; "Payment Status"]%string.

(** the body of the loop over [required_cols] *)
Definition add_missing (history_df : DataFrame) (col : string) : DataFrame :=
  if negb (has_column history_df col)
  then setitem_scalar history_df col (Str "")
  else history_df.

Definition load_history (stored : option DataFrame) : DataFrame :=
  match stored with
  | Some history_df => foldl add_missing history_df required_cols
  | None => mkDataFrame [] ((fun col => (col, [])) <$> required_cols)
  end.

(** ** [main]: the due date of a new entry *)

Definition Payment_Frequency_options : list string :=
  ["Monthly (30 days)"; "Quarterly (90 days)"; "Custom"]%string.

(** [needle in s] on texts *)
Definition contains (needle s : string) : bool :=
  match String.index 0 needle s with
  | Some _ => true
  | None => false
  end.

(** [custom_days] is what the number input gives, a number from 1 to 365. *)
Definition frequency_days (Payment_Frequency : string) (custom_days : Z) : Z :=
  if String.eqb Payment_Frequency "Custom" then custom_days
  else if contains "Monthly" Payment_Frequency then 30
  else 90.

(** [Previous_Payment_Date] is the date of the date input, [None] when the
    input is empty. *)
Definition Next_Payment_Due_Date (Previous_Payment_Date : option date)
  (frequency_days : Z) : result string :=
  match Previous_Payment_Date with
  | Some previous =>
      delta ← timedelta frequency_days;
      due_date ← date_add previous delta;
      Ok (strftime due_date)
  | None => Ok ""%string
  end.

(** ** [main]: the tenant management dashboard *)

Section Dashboard.

Context `{Parser}.

(** [history_df['Payment Status'] =
      history_df['Next Payment Due Date'].apply(get_payment_status)] *)
Definition recompute_statuses (now : date) (history_df : DataFrame)
  : result DataFrame :=
  due ← getitem history_df "Next Payment Due Date";
  status ← apply (get_payment_status now) due;
  Ok (setitem history_df "Payment Status" (Str <$> status)).

Definition tenant_cols : list string :=
  ["Tenant Name"; "Telephone Number"; "City"; "Area Locality";
   "Predicted Rent"; "Previous Payment Date"; "Next Payment Due Date";
   "Payment Status"]%string.

(** [tenant_summary['Payment Status'].value_counts()] *)
Definition status_counts (tenant_summary : DataFrame)
  : result (list (value * nat)) :=
  status ← getitem tenant_summary "Payment Status";
  Ok (value_counts status).

(** The four [st.metric] figures of the payment status overview, with their
    labels, in the order of the source. *)
Definition overview (counts : list (value * nat)) : list (string * nat) :=
  [("Overdue", get counts (Str "Overdue") 0%nat);
   ("Due Soon", get counts (Str "Due Soon") 0%nat);
   ("Due Today", get counts (Str "Due Today") 0%nat);
   ("Upcoming", get counts (Str "Upcoming") 0%nat)]%string.

(** The part of the dashboard up to the overview: the table with its
    status column recomputed, and the overview shown.  Nothing of it runs
    on an empty table. *)
Definition dashboard (now : date) (history_df : DataFrame)
  : result (DataFrame * option (list (string * nat))) :=
  if negb (empty history_df) then
    history_df ← recompute_statuses now history_df;
    let available_cols := filter (fun col => has_column history_df col) tenant_cols in
    tenant_summary ← select history_df available_cols;
    counts ← status_counts tenant_summary;
    Ok (history_df, Some (overview counts))
  else Ok (history_df, None).

End Dashboard.

(** ** [main]: deleting a row

    What the delete button works on: the table in memory, the history file
    and the notices shown to the user.  When a step raises, the later steps
    do not run and everything is as that step found it.  The closing
    [st.rerun()] starts the script over and changes none of the three. *)

Inductive notice : Set :=
| Row_deleted (delete_index : Z).

Record session : Set := mkSession {
  history_df : DataFrame;
  HISTORY_FILE : option DataFrame;
  notices : list notice
}.

Definition delete_row (delete_index : Z) (s : session) : result unit * session :=
  match drop (history_df s) delete_index with
  | Raise e => (Raise e, s)
  | Ok dropped =>
      let kept := reset_index dropped in
      (Ok (),
       mkSession kept (Some kept) (notices s ++ [Row_deleted delete_index]))
  end.

(** ** Names for the statements *)

(** The five statuses and the text the application uses for each. *)
Inductive Status : Set := Unknown | Overdue | DueToday | DueSoon | Upcoming.

Definition label (s : Status) : string :=
  match s with
  | Unknown => "Unknown"
  | Overdue => "Overdue"
  | DueToday => "Due Today"
  | DueSoon => "Due Soon"
  | Upcoming => "Upcoming"
  end.

Definition statuses : list Status := [Unknown; Overdue; DueToday; DueSoon; Upcoming].

(** How many of the [cells] hold the status [s]. *)
Definition records_with (s : Status) (cells : list value) : nat :=
  length (filter (fun c => c = Str (label s)) cells).

(** A date as a number of days, for comparing dates and counting the days
    between them. *)
Definition days_between (from to : date) : Z := toordinal to - toordinal from.

(** The dates a timestamp can stand for, and the dates of the clock the
    model covers: from 1970-01-01 on. *)
Definition representable (d : date) : Prop := in_bounds (midnight d) = true.

Definition clock (now : date) : Prop :=
  well_formed now = true /\ 0 <= midnight now /\ representable now.

(** The most days a [Timedelta] holds. *)
Definition MAX_TIMEDELTA_DAYS : Z := 106751.

(** The cell [v] is there and the parser reads it as the date [d]. *)
Definition reads_as `{Parser} (v : value) (d : date) : Prop :=
  isna v = false /\ eq_text v "" = false /\
  well_formed d = true /\ to_datetime v = Ok (Scalar (midnight d)).

(** The cell [v] holds no date: it is missing, empty, or the parser raises
    on it. *)
Definition no_date `{Parser} (v : value) : Prop :=
  v = NaN \/ v = Str "" \/ exists e, to_datetime v = Raise e.

(** ** [main]: adding an entry

    The sidebar gives the fields of a new entry.  The whole numbers come
    from number inputs, the dates from date inputs ([None] for an empty
    one), the rest are texts. *)

Record sidebar : Set := mkSidebar {
  BHK : Z;
  Size : Z;
  Bathroom : Z;
  Furnishing_Status : string;
  Tenant_Preferred : string;
  City : string;
  Point_of_Contact : string;
  Area_Locality : string;
  Posted_On : date;
  Area_Type : string;
  Floor : string;
  Tenant_Name : string;
  Telephone_Number : string;
  Previous_Payment_Date : option date;
  Payment_Frequency : string;
  custom_days : Z
}.

(** [str(d)] for what a date input gives *)
Definition str_date (d : option date) : string :=
  match d with
  | Some d => strftime d
  | None => "None"
  end.

(** The one row handed to the predictor, column by column. *)
Definition input_data (ui : sidebar) : list (string * value) :=
  [("BHK", Num (BHK ui));
   ("Size", Num (Size ui));
   ("Bathroom", Num (Bathroom ui));
   ("Furnishing Status", Str (Furnishing_Status ui));
   ("Tenant Preferred", Str (Tenant_Preferred ui));
   ("City", Str (City ui));
   ("Point of Contact", Str (Point_of_Contact ui));
   ("Area Locality", Str (Area_Locality ui));
   ("Posted On", Str (strftime (Posted_On ui)));
   ("Area Type", Str (Area_Type ui));
   ("Floor", Str (Floor ui))]%string.

(** [history_entry]: the row of [input_data] with the six further columns *)
Definition history_entry (ui : sidebar) (predicted_rent : value)
  (due_date payment_status : string) : list (string * value) :=
  input_data ui ++
  [("Predicted Rent", predicted_rent);
   ("Tenant Name", Str (Tenant_Name ui));
   ("Telephone Number", Str (Telephone_Number ui));
   ("Previous Payment Date", Str (str_date (Previous_Payment_Date ui)));
   ("Next Payment Due Date", Str due_date);
   ("Payment Status", Str payment_status)]%string.

Fixpoint lookup_entry (col : string) (entry : list (string * value))
  : option value :=
  match entry with
  | [] => None
  | (c, v) :: rest => if String.eqb c col then Some v else lookup_entry col rest
  end.

(** [pd.concat([df, entry], ignore_index=True)] for a one-row [entry]: the
    columns of [df] in their order, then the columns only the entry has; a
    cell neither side has is [NaN]; the rows are labelled anew. *)
Definition concat (df : DataFrame) (entry : list (string * value)) : DataFrame :=
  mkDataFrame (RangeIndex (S (len df)))
    (((fun c => (c.1, c.2 ++ [default NaN (lookup_entry c.1 entry)]))
        <$> columns df)
     ++ ((fun e => (e.1, replicate (len df) NaN ++ [e.2]))
           <$> filter (fun e => has_column df e.1 = false) entry)).

(** The due date of the entry, from the sidebar (lines 118 to 130). *)
Definition due_date_of (ui : sidebar) : result string :=
  Next_Payment_Due_Date (Previous_Payment_Date ui)
    (frequency_days (Payment_Frequency ui) (custom_days ui)).

(** What the predict button does to table and file.  [model] is the
    predictor, [due_date] the text [due_date_of] gave.  The figures shown
    after the file is written are left out. *)
Definition predict_rent `{Parser} (now : date)
  (model : list (string * value) -> value) (ui : sidebar) (due_date : string)
  (s : session) : result unit * session :=
  let predicted_rent := model (input_data ui) in
  match get_payment_status now (Str due_date) with
  | Raise e => (Raise e, s)
  | Ok payment_status =>
      let appended :=
        concat (history_df s)
          (history_entry ui predicted_rent due_date payment_status) in
      (Ok (), mkSession appended (Some appended) (notices s))
  end.

(** ** [main]: the tenant management section as a whole

    The statuses are recomputed in the table in memory, the summary and the
    counts are taken, and then the delete button, when pressed with
    [delete_index], works on the recomputed table.  Nothing of it runs on an
    empty table. *)
Definition tenant_management `{Parser} (now : date) (delete_index : option Z)
  (s : session) : result unit * session :=
  if negb (empty (history_df s)) then
    match recompute_statuses now (history_df s) with
    | Raise e => (Raise e, s)
    | Ok recomputed =>
        let s := mkSession recomputed (HISTORY_FILE s) (notices s) in
        let available_cols :=
          filter (fun col => has_column recomputed col) tenant_cols in
        match tenant_summary ← select recomputed available_cols;
              status_counts tenant_summary with
        | Raise e => (Raise e, s)
        | Ok _ =>
            match delete_index with
            | Some i => delete_row i s
            | None => (Ok (), s)
            end
        end
    end
  else (Ok (), s).

(** [color_payment_status(val)]: the style of a cell of the status column *)
Definition color_payment_status (val : value) : string :=
  if eq_text val "Overdue" then "color: red; font-weight: bold"
  else if eq_text val "Due Today" then "color: orange; font-weight: bold"
  else if eq_text val "Due Soon" then "color: #FFD700; font-weight: bold"
  else if eq_text val "Upcoming" then "color: green"
  else "".

(** The columns of the history kept by the two earlier versions of the
    application (lines 299 to 302 and 427 to 430). *)
Definition earlier_cols : list string :=
  ["BHK"; "Size"; "Bathroom"; "Furnishing Status"; "Tenant Preferred";
   "City"; "Point of Contact"; "Area Locality"; "Posted On"; "Area Type";
   "Floor"; "Predicted Rent"]%string.

(** How pressing a status is: later means more pressing. *)
Definition urgency (status : string) : nat :=
  if String.eqb status "Overdue" then 3%nat
  else if String.eqb status "Due Today" then 2%nat
  else if String.eqb status "Due Soon" then 1%nat
  else 0%nat.

(** The delete button of the earliest version (lines 509 to 512): its
    table lives in the session state, so what one press leaves is what the
    next press finds. *)
Definition delete_from_session (delete_index : Z) (history : DataFrame)
  : result DataFrame :=
  dropped ← drop history delete_index;
  Ok (reset_index dropped).

(* ================================================================== *)
(** * Part II: facts *)
(* ================================================================== *)

(** ** Exceptions *)

Lemma bind_Ok {A B} (f : A -> result B) (a : A) : (Ok a ≫= f) = f a.
Proof. reflexivity. Qed.

Lemma bind_Raise {A B} (f : A -> result B) (e : exn) :
  (Raise e ≫= f) = Raise e.
Proof. reflexivity. Qed.

Lemma try_except_returns {A} (body : result A) (a : A) :
  returns (try_except body (Ok a)).
Proof. destruct body as [b|e]; [exists b | exists a]; reflexivity. Qed.

(** ** The calendar: an ordinal and its date *)

Module CalendarFacts.

Lemma div_mod_eq n d q r :
  n = d * q + r -> 0 <= r < d -> n / d = q /\ n mod d = r.
Proof.
  intros -> Hr. split.
  - symmetry. apply (Z.div_unique_pos _ _ q r); lia.
  - symmetry. apply (Z.mod_unique_pos _ _ q r); lia.
Qed.

Lemma is_leap_spec y :
  is_leap y = true <-> y mod 4 = 0 /\ (y mod 100 <> 0 \/ y mod 400 = 0).
Proof.
  unfold is_leap.
  rewrite andb_true_iff, orb_true_iff, negb_true_iff, !Z.eqb_eq, Z.eqb_neq.
  tauto.
Qed.

(** A year is cut along the cycles of 400, 100 and 4 years. *)
Lemma year_cycles y :
  exists a b c e, y = 400 * a + 100 * b + 4 * c + e + 1 /\
    0 <= b < 4 /\ 0 <= c < 25 /\ 0 <= e < 4.
Proof.
  exists ((y - 1) / 400), ((y - 1) mod 400 / 100),
    ((y - 1) mod 400 mod 100 / 4), ((y - 1) mod 400 mod 100 mod 4).
  pose proof (Z.div_mod (y - 1) 400 ltac:(lia)).
  pose proof (Z.mod_pos_bound (y - 1) 400 ltac:(lia)).
  set (r := (y - 1) mod 400) in *.
  pose proof (Z.div_mod r 100 ltac:(lia)).
  pose proof (Z.mod_pos_bound r 100 ltac:(lia)).
  set (r' := r mod 100) in *.
  pose proof (Z.div_mod r' 4 ltac:(lia)).
  pose proof (Z.mod_pos_bound r' 4 ltac:(lia)).
  repeat split; lia.
Qed.

Section Cycles.

Variables a b c e : Z.
Hypotheses (Hb : 0 <= b < 4) (Hc : 0 <= c < 25) (He : 0 <= e < 4).

Lemma days_before_year_cycles :
  days_before_year (400 * a + 100 * b + 4 * c + e + 1)
  = 146097 * a + 36524 * b + 1461 * c + 365 * e.
Proof.
  unfold days_before_year. cbv zeta.
  replace (400 * a + 100 * b + 4 * c + e + 1 - 1)
    with (400 * a + 100 * b + 4 * c + e) by lia.
  destruct (div_mod_eq (400 * a + 100 * b + 4 * c + e) 4
              (100 * a + 25 * b + c) e) as [-> _]; [lia..|].
  destruct (div_mod_eq (400 * a + 100 * b + 4 * c + e) 100
              (4 * a + b) (4 * c + e)) as [-> _]; [lia..|].
  destruct (div_mod_eq (400 * a + 100 * b + 4 * c + e) 400
              a (100 * b + 4 * c + e)) as [-> _]; [lia..|].
  lia.
Qed.

Lemma is_leap_cycles :
  is_leap (400 * a + 100 * b + 4 * c + e + 1)
  = (e =? 3) && (negb (c =? 24) || (b =? 3)).
Proof.
  set (y := 400 * a + 100 * b + 4 * c + e + 1).
  destruct (is_leap y) eqn:L.
  - apply is_leap_spec in L. symmetry.
    rewrite andb_true_iff, orb_true_iff, negb_true_iff, !Z.eqb_eq, Z.eqb_neq.
    subst y. Z.to_euclidean_division_equations. lia.
  - symmetry. apply not_true_is_false. intros L'. apply not_true_iff_false in L.
    apply L, is_leap_spec.
    rewrite andb_true_iff, orb_true_iff, negb_true_iff, !Z.eqb_eq, Z.eqb_neq in L'.
    subst y. Z.to_euclidean_division_equations. lia.
Qed.

End Cycles.

(** The first half of [fromordinal]: the year, and the day within it.  [k]
    counts the days since January 1st of year [y]. *)
Lemma fromordinal_year y k :
  0 <= k -> k < (if is_leap y then 366 else 365) ->
  let n := days_before_year y + k in
  let n400 := n / DI400Y in
  let r400 := n mod DI400Y in
  let n100 := r400 / DI100Y in
  let r100 := r400 mod DI100Y in
  let n4 := r100 / DI4Y in
  let r4 := r100 mod DI4Y in
  let n1 := r4 / 365 in
  let r1 := r4 mod 365 in
  let y' := n400 * 400 + 1 + n100 * 100 + n4 * 4 + n1 in
  if (n1 =? 4) || (n100 =? 4) then y' - 1 = y /\ k = 365
  else y' = y /\ r1 = k /\
       (n1 =? 3) && (negb (n4 =? 24) || (n100 =? 3)) = is_leap y.
Proof.
  intros Hk0 Hk. cbv zeta. unfold DI400Y, DI100Y, DI4Y.
  destruct (year_cycles y) as (a & b & c & e & -> & Hb & Hc & He).
  rewrite is_leap_cycles in * by assumption.
  rewrite days_before_year_cycles by assumption.
  destruct (Z.eq_dec k 365) as [->|Hk365].
  - (* the last day of a leap year *)
    destruct (Z.eqb_spec e 3) as [E3|E3]; [subst e|simpl in Hk; lia].
    destruct (Z.eqb_spec c 24) as [E24|E24]; [subst c|].
    + destruct (Z.eqb_spec b 3) as [E|E]; [subst b|simpl in Hk; lia].
      destruct (div_mod_eq (146097 * a + 36524 * 3 + 1461 * 24 + 365 * 3 + 365)
                  146097 a 146096) as [-> ->]; [lia..|].
      simpl. Z.to_euclidean_division_equations. lia.
    + destruct (div_mod_eq (146097 * a + 36524 * b + 1461 * c + 365 * 3 + 365)
                  146097 a (36524 * b + 1461 * c + 1460)) as [-> ->]; [lia..|].
      destruct (div_mod_eq (36524 * b + 1461 * c + 1460) 36524 b
                  (1461 * c + 1460)) as [-> ->]; [lia..|].
      destruct (div_mod_eq (1461 * c + 1460) 1461 c 1460) as [-> ->]; [lia..|].
      change (1460 / 365) with 4. simpl. lia.
  - assert (k < 365) by (destruct (_ && _); lia).
    destruct (div_mod_eq (146097 * a + 36524 * b + 1461 * c + 365 * e + k)
                146097 a (36524 * b + 1461 * c + 365 * e + k)) as [-> ->];
      [lia..|].
    destruct (div_mod_eq (36524 * b + 1461 * c + 365 * e + k) 36524 b
                (1461 * c + 365 * e + k)) as [-> ->]; [lia..|].
    destruct (div_mod_eq (1461 * c + 365 * e + k) 1461 c (365 * e + k))
      as [-> ->]; [lia..|].
    destruct (div_mod_eq (365 * e + k) 365 e k) as [-> ->]; [lia..|].
    destruct (Z.eqb_spec e 4); [lia|]. destruct (Z.eqb_spec b 4); [lia|].
    simpl. repeat split; lia.
Qed.

Lemma month_cases m :
  1 <= m <= 12 ->
  m = 1 \/ m = 2 \/ m = 3 \/ m = 4 \/ m = 5 \/ m = 6 \/
  m = 7 \/ m = 8 \/ m = 9 \/ m = 10 \/ m = 11 \/ m = 12.
Proof. lia. Qed.

Ltac month_split H :=
  apply month_cases in H;
  repeat (destruct H as [H | H]; [subst | ]); [ .. | subst ].

(** The second half of [fromordinal]: month and day from the day within the
    year. *)
Lemma fromordinal_month (leap : bool) m dd :
  1 <= m <= 12 ->
  1 <= dd <= DAYS_IN_MONTH m + (if (m =? 2) && leap then 1 else 0) ->
  let n := DAYS_BEFORE_MONTH m + (if (2 <? m) && leap then 1 else 0) + dd - 1 in
  let m' := Z.shiftr (n + 50) 5 in
  let preceding :=
    DAYS_BEFORE_MONTH m' + (if (2 <? m') && leap then 1 else 0) in
  (if n <? preceding
   then (m' - 1,
         n - (preceding
              - (DAYS_IN_MONTH (m' - 1)
                 + (if (m' - 1 =? 2) && leap then 1 else 0))) + 1)
   else (m', n - preceding + 1)) = (m, dd).
Proof.
  intros Hm Hd. cbv zeta. rewrite Z.shiftr_div_pow2 by lia. change (2 ^ 5) with 32.
  month_split Hm; destruct leap; simpl in Hd |- *;
  match goal with
  | |- context [?e / 32] =>
      let q := fresh "q" in
      let Hq := fresh "Hq" in
      remember (e / 32) as q eqn:Hq;
      match goal with
      | |- _ = (?m, _) =>
          assert (q = m \/ q = m + 1) as [-> | ->]
            by (subst q; Z.to_euclidean_division_equations; lia)
      end
  end; simpl;
  match goal with
  | |- context [?a <? ?b] => destruct (Z.ltb_spec a b)
  end; try (f_equal; lia); try (exfalso; Z.to_euclidean_division_equations; lia).
Qed.

Lemma well_formed_spec d :
  well_formed d = true <->
  1 <= month d <= 12 /\ 1 <= day d <= days_in_month (year d) (month d).
Proof. unfold well_formed. rewrite !andb_true_iff, !Z.leb_le. tauto. Qed.

Lemma valid_spec d :
  valid d = true <->
  1 <= year d <= 9999 /\ well_formed d = true.
Proof.
  unfold valid, MINYEAR, MAXYEAR. rewrite !andb_true_iff, !Z.leb_le. tauto.
Qed.

Lemma days_in_month_flag y m :
  days_in_month y m
  = DAYS_IN_MONTH m + (if (m =? 2) && is_leap y then 1 else 0).
Proof.
  unfold days_in_month. destruct (Z.eqb_spec m 2) as [->|]; simpl; [|lia].
  destruct (is_leap y); reflexivity.
Qed.

Lemma day_of_year_bounds y m dd :
  1 <= m <= 12 -> 1 <= dd <= days_in_month y m ->
  0 <= days_before_month y m + dd - 1 < (if is_leap y then 366 else 365).
Proof.
  intros Hm Hd. rewrite days_in_month_flag in Hd. unfold days_before_month.
  month_split Hm; destruct (is_leap y); simpl in *; lia.
Qed.

(** [fromordinal] undoes [toordinal]. *)
Lemma fromordinal_toordinal d :
  well_formed d = true -> fromordinal (toordinal d) = d.
Proof.
  destruct d as [y m dd]. rewrite well_formed_spec. simpl. intros (Hm & Hd).
  pose proof (day_of_year_bounds y m dd Hm Hd) as Hk.
  pose proof (fromordinal_year y (days_before_month y m + dd - 1)
                ltac:(lia) ltac:(lia)) as HY.
  cbv zeta in HY.
  unfold fromordinal, toordinal. cbn [year month day]. cbv zeta.
  replace (days_before_year y + days_before_month y m + dd - 1)
    with (days_before_year y + (days_before_month y m + dd - 1)) by lia.
  destruct (_ || _).
  - destruct HY as [-> HK]. rewrite days_in_month_flag in Hd.
    unfold days_before_month in HK.
    assert (m = 12 /\ dd = 31) as [-> ->]; [|reflexivity].
    clear Hk. month_split Hm; destruct (is_leap _); simpl in *; lia.
  - destruct HY as (-> & -> & ->). rewrite days_in_month_flag in Hd.
    pose proof (fromordinal_month (is_leap y) m dd Hm Hd) as HM.
    cbv zeta in HM. unfold days_before_month.
    destruct (_ <? _); injection HM as E1 E2; f_equal; assumption.
Qed.

(** ** The calendar: one day at a time *)

Lemma days_before_year_succ y :
  days_before_year (y + 1)
  = days_before_year y + (if is_leap y then 366 else 365).
Proof.
  destruct (year_cycles y) as (a & b & c & e & -> & Hb & Hc & He).
  rewrite is_leap_cycles, days_before_year_cycles by assumption.
  unfold days_before_year. cbv zeta.
  destruct (Z.eqb_spec e 3); destruct (Z.eqb_spec c 24);
    destruct (Z.eqb_spec b 3); simpl;
    Z.to_euclidean_division_equations; lia.
Qed.

Lemma next_day_spec d :
  well_formed d = true ->
  toordinal (next_day d) = toordinal d + 1 /\ well_formed (next_day d) = true.
Proof.
  destruct d as [y m dd]. rewrite !well_formed_spec. unfold next_day, toordinal.
  cbn [year month day]. intros (Hm & Hd).
  destruct (Z.ltb_spec dd (days_in_month y m)) as [Hlt|Hge]; cbn [year month day].
  - lia.
  - assert (dd = days_in_month y m) as -> by lia. clear Hge Hd.
    destruct (Z.ltb_spec m 12) as [Hm12|Hm12]; cbn [year month day].
    + assert (1 <= m <= 11) as Hm' by lia. clear Hm Hm12.
      unfold days_before_month, days_in_month.
      assert (m = 1 \/ m = 2 \/ m = 3 \/ m = 4 \/ m = 5 \/ m = 6 \/ m = 7 \/
              m = 8 \/ m = 9 \/ m = 10 \/ m = 11) as Hc by lia.
      repeat (destruct Hc as [Hc | Hc]; [subst; destruct (is_leap y); simpl; lia|]).
      subst; destruct (is_leap y); simpl; lia.
    + assert (m = 12) as -> by lia.
      rewrite days_before_year_succ. unfold days_before_month, days_in_month.
      destruct (is_leap y), (is_leap (y + 1)); simpl; lia.
Qed.

Lemma prev_day_spec d :
  well_formed d = true ->
  toordinal (prev_day d) = toordinal d - 1 /\ well_formed (prev_day d) = true.
Proof.
  destruct d as [y m dd]. rewrite !well_formed_spec. unfold prev_day, toordinal.
  cbn [year month day]. intros (Hm & Hd).
  destruct (Z.ltb_spec 1 dd) as [Hlt|Hge]; cbn [year month day].
  - lia.
  - assert (dd = 1) as -> by lia. clear Hge Hd.
    destruct (Z.ltb_spec 1 m) as [Hm1|Hm1]; cbn [year month day].
    + assert (2 <= m <= 12) as Hm' by lia. clear Hm Hm1.
      unfold days_before_month, days_in_month.
      assert (m = 2 \/ m = 3 \/ m = 4 \/ m = 5 \/ m = 6 \/ m = 7 \/ m = 8 \/
              m = 9 \/ m = 10 \/ m = 11 \/ m = 12) as Hc by lia.
      repeat (destruct Hc as [Hc | Hc]; [subst; destruct (is_leap y); simpl; lia|]).
      subst; destruct (is_leap y); simpl; lia.
    + assert (m = 1) as -> by lia.
      pose proof (days_before_year_succ (y - 1)) as Hs.
      replace (y - 1 + 1) with y in Hs by lia. rewrite Hs.
      unfold days_before_month, days_in_month.
      destruct (is_leap y), (is_leap (y - 1)); simpl; lia.
Qed.

Lemma iter_succ {A} (f : A -> A) (x : A) n :
  0 <= n -> Z.iter (Z.succ n) f x = f (Z.iter n f x).
Proof.
  destruct n as [|p|p]; [reflexivity | | lia]. intros _.
  change (Z.succ (Z.pos p)) with (Z.pos p + 1). simpl.
  rewrite Pos.add_1_r. apply Pos.iter_succ.
Qed.

Lemma iter_next_day d n :
  0 <= n -> well_formed d = true ->
  toordinal (Z.iter n next_day d) = toordinal d + n /\
  well_formed (Z.iter n next_day d) = true.
Proof.
  intros Hn Hd. revert n Hn. apply natlike_ind.
  - simpl. split; [lia | assumption].
  - intros n Hn [IH1 IH2]. rewrite iter_succ by assumption.
    destruct (next_day_spec _ IH2) as [E W]. split; [lia | assumption].
Qed.

Lemma iter_prev_day d n :
  0 <= n -> well_formed d = true ->
  toordinal (Z.iter n prev_day d) = toordinal d - n /\
  well_formed (Z.iter n prev_day d) = true.
Proof.
  intros Hn Hd. revert n Hn. apply natlike_ind.
  - simpl. split; [lia | assumption].
  - intros n Hn [IH1 IH2]. rewrite iter_succ by assumption.
    destruct (prev_day_spec _ IH2) as [E W]. split; [lia | assumption].
Qed.

(** Moving a date day by day moves its ordinal by as much. *)
Lemma advance_spec d n :
  well_formed d = true ->
  toordinal (advance d n) = toordinal d + n /\ well_formed (advance d n) = true.
Proof.
  intros Hd. unfold advance. destruct (Z.leb_spec 0 n).
  - apply iter_next_day; assumption.
  - destruct (iter_prev_day d (- n) ltac:(lia) Hd) as [E W].
    split; [lia | assumption].
Qed.

(** Ordinal arithmetic is day-by-day stepping through the calendar. *)
Lemma fromordinal_advance d n :
  well_formed d = true -> fromordinal (toordinal d + n) = advance d n.
Proof.
  intros Hd. destruct (advance_spec d n Hd) as [E W].
  rewrite <- E. apply fromordinal_toordinal, W.
Qed.

(** ** The calendar: ordinals follow the order of the dates *)

Lemma toordinal_injective a b :
  well_formed a = true -> well_formed b = true ->
  toordinal a = toordinal b -> a = b.
Proof.
  intros Ha Hb E. rewrite <- (fromordinal_toordinal a Ha), E.
  apply fromordinal_toordinal, Hb.
Qed.

(** [b] lies [k] days after [a] exactly when stepping [k] days from [a]
    through the calendar ends at [b]. *)
Lemma advance_iff a b k :
  well_formed a = true -> well_formed b = true ->
  toordinal b - toordinal a = k <-> b = advance a k.
Proof.
  intros Ha Hb. destruct (advance_spec a k Ha) as [E W]. split.
  - intros Hk. apply toordinal_injective; [assumption..|]. lia.
  - intros ->. lia.
Qed.

Lemma days_before_year_lt y1 y2 :
  y1 < y2 -> days_before_year (y1 + 1) <= days_before_year y2.
Proof.
  intros Hlt. unfold days_before_year. cbv zeta.
  Z.to_euclidean_division_equations. lia.
Qed.

Lemma days_before_month_lt y m1 m2 :
  1 <= m1 <= 12 -> 1 <= m2 <= 12 -> m1 < m2 ->
  days_before_month y m1 + days_in_month y m1 <= days_before_month y m2.
Proof.
  intros H1 H2 Hlt. unfold days_before_month, days_in_month.
  month_split H1; month_split H2; try lia; destruct (is_leap y); simpl; lia.
Qed.

Lemma date_lt_toordinal a b :
  well_formed a = true -> well_formed b = true ->
  date_lt a b -> toordinal a < toordinal b.
Proof.
  destruct a as [ya ma da], b as [yb mb db]. rewrite !well_formed_spec.
  unfold date_lt, toordinal. cbn [year month day].
  intros (Hma & Hda) (Hmb & Hdb) Hlt.
  pose proof (day_of_year_bounds ya ma da Hma Hda) as Ha.
  pose proof (day_of_year_bounds yb mb db Hmb Hdb) as Hb.
  destruct Hlt as [Hy | [-> [Hm | [-> Hd]]]].
  - pose proof (days_before_year_lt ya yb Hy) as Hyy.
    rewrite days_before_year_succ in Hyy. destruct (is_leap ya); lia.
  - pose proof (days_before_month_lt yb ma mb Hma Hmb Hm). lia.
  - lia.
Qed.

Lemma date_lt_total a b : date_lt a b \/ a = b \/ date_lt b a.
Proof.
  destruct a as [ya ma da], b as [yb mb db]. unfold date_lt. cbn [year month day].
  destruct (Z.lt_total ya yb) as [?|[->|?]]; [tauto| |tauto].
  destruct (Z.lt_total ma mb) as [?|[->|?]]; [tauto| |tauto].
  destruct (Z.lt_total da db) as [?|[->|?]]; tauto.
Qed.

(** Comparing ordinals is comparing dates. *)
Lemma toordinal_lt a b :
  well_formed a = true -> well_formed b = true ->
  toordinal a < toordinal b <-> date_lt a b.
Proof.
  intros Ha Hb. split; [|apply date_lt_toordinal; assumption].
  intros Hlt. destruct (date_lt_total a b) as [H|[->|H]]; [exact H|lia|].
  apply date_lt_toordinal in H; [lia|assumption..].
Qed.

Lemma strftime_nonempty d : strftime d <> ""%string.
Proof. unfold strftime, pad4. simpl. discriminate. Qed.

End CalendarFacts.

Import CalendarFacts.

(** ** Timestamps *)

Lemma in_bounds_spec v :
  in_bounds v = true <-> - INT64_MAX <= v <= INT64_MAX.
Proof. unfold in_bounds. rewrite andb_true_iff, !Z.leb_le. tauto. Qed.

Lemma midnight_advance d n :
  well_formed d = true -> midnight (advance d n) = midnight d + n * NS_PER_DAY.
Proof.
  intros Hd. unfold midnight. destruct (advance_spec d n Hd) as [-> _]. lia.
Qed.

Lemma midnight_lt a b : midnight a < midnight b <-> toordinal a < toordinal b.
Proof. unfold midnight, NS_PER_DAY. lia. Qed.

Lemma midnight_eq a b : midnight a = midnight b <-> toordinal a = toordinal b.
Proof. unfold midnight, NS_PER_DAY. lia. Qed.

Lemma days_between_midnight a b :
  Timedelta_days (midnight b - midnight a) = days_between a b.
Proof.
  unfold Timedelta_days, midnight, days_between.
  replace ((toordinal b - EPOCH_ORDINAL) * NS_PER_DAY
           - (toordinal a - EPOCH_ORDINAL) * NS_PER_DAY)
    with ((toordinal b - toordinal a) * NS_PER_DAY) by lia.
  apply Z.div_mul. unfold NS_PER_DAY. lia.
Qed.

Lemma Timestamp_date_midnight d n :
  well_formed d = true ->
  Timestamp_date (midnight d + n * NS_PER_DAY) = advance d n.
Proof.
  intros Hd. unfold Timestamp_date, midnight.
  replace ((toordinal d - EPOCH_ORDINAL) * NS_PER_DAY + n * NS_PER_DAY)
    with ((toordinal d - EPOCH_ORDINAL + n) * NS_PER_DAY) by lia.
  rewrite Z.div_mul by (unfold NS_PER_DAY; lia).
  replace (toordinal d - EPOCH_ORDINAL + n + EPOCH_ORDINAL)
    with (toordinal d + n) by lia.
  apply fromordinal_advance, Hd.
Qed.

Lemma timedelta_Ok n : Z.abs n <= 999999999 -> timedelta n = Ok n.
Proof. intros Hn. unfold timedelta. destruct (Z.leb_spec (Z.abs n) 999999999); [reflexivity | lia]. Qed.

Lemma Timestamp_add_Ok t n :
  Z.abs n <= MAX_TIMEDELTA_DAYS -> in_bounds (t + n * NS_PER_DAY) = true ->
  Timestamp_add t n = Ok (t + n * NS_PER_DAY).
Proof.
  intros Hn Hb. unfold Timestamp_add. cbv zeta.
  assert (in_bounds (n * NS_PER_DAY) = true) as ->.
  { apply in_bounds_spec. unfold MAX_TIMEDELTA_DAYS, NS_PER_DAY, INT64_MAX in *. lia. }
  rewrite Hb. reflexivity.
Qed.

(** ** The due-date calculator *)

Section DueDate.

Context `{Parser}.

(** The calculator on a cell that reads as a date: the date moved by the
    frequency, as long as timedelta and timestamp can hold the result. *)
Lemma calculate_due_date_shift v d n :
  reads_as v d -> Z.abs n <= MAX_TIMEDELTA_DAYS -> representable (advance d n) ->
  calculate_due_date v n = Ok (strftime (advance d n)).
Proof.
  intros (Hna & Hne & Hd & Hv) Hn Hr. unfold calculate_due_date.
  rewrite Hna, Hne, Hv. simpl.
  rewrite timedelta_Ok by (unfold MAX_TIMEDELTA_DAYS in Hn; lia). simpl.
  unfold representable in Hr. rewrite midnight_advance in Hr by assumption.
  rewrite Timestamp_add_Ok by assumption. simpl.
  unfold Timestamp_strftime. rewrite Timestamp_date_midnight by assumption.
  reflexivity.
Qed.

Lemma calculate_due_date_absent v n :
  v = NaN \/ v = Str "" -> calculate_due_date v n = Ok ""%string.
Proof. intros [-> | ->]; reflexivity. Qed.

Lemma calculate_due_date_no_date v n :
  no_date v -> calculate_due_date v n = Ok ""%string.
Proof.
  intros [-> | [-> | [e He]]]; [reflexivity..|].
  unfold calculate_due_date. destruct (isna v || eq_text v ""); [reflexivity|].
  rewrite He. reflexivity.
Qed.

Lemma calculate_due_date_returns v n : returns (calculate_due_date v n).
Proof.
  unfold calculate_due_date. destruct (isna v || eq_text v "").
  - eexists; reflexivity.
  - apply try_except_returns.
Qed.

(** On a cell the parser reads as [NaT] the sum is [NaT] again, formatting
    it raises, and the calculator answers with the empty text. *)
Lemma calculate_due_date_NaT v n :
  to_datetime v = Ok NaT -> calculate_due_date v n = Ok ""%string.
Proof.
  intros Hv. unfold calculate_due_date.
  destruct (isna v || eq_text v ""); [reflexivity|]. rewrite Hv.
  cbn [mbind result_bind]. destruct (timedelta n); reflexivity.
Qed.

End DueDate.

(** [main] computes the due date on the date itself. *)
Lemma Next_Payment_Due_Date_shift d n :
  well_formed d = true -> Z.abs n <= 999999999 ->
  0 < toordinal d + n <= MAXORDINAL ->
  Next_Payment_Due_Date (Some d) n = Ok (strftime (advance d n)).
Proof.
  intros Hd Hn Ho. unfold Next_Payment_Due_Date.
  rewrite timedelta_Ok by assumption. simpl. unfold date_add. cbv zeta.
  destruct (Z.ltb_spec 0 (toordinal d + n)); [|lia].
  destruct (Z.leb_spec (toordinal d + n) MAXORDINAL); [|lia]. simpl.
  rewrite fromordinal_advance by assumption. reflexivity.
Qed.

Lemma frequency_days_range Payment_Frequency custom_days :
  In Payment_Frequency Payment_Frequency_options -> 1 <= custom_days <= 365 ->
  1 <= frequency_days Payment_Frequency custom_days <= 365.
Proof.
  intros [<- | [<- | [<- | []]]] Hc; vm_compute; try (split; discriminate).
  exact Hc.
Qed.

(** ** The payment-status classifier *)

Section Classifier.

Context `{Parser}.

Lemma Timestamp_of_date_clock now :
  clock now -> Timestamp_of_date now = Ok (midnight now).
Proof. intros (_ & _ & Hr). unfold Timestamp_of_date. rewrite Hr. reflexivity. Qed.

(** The classifier on a cell that reads as a date, by the number of days
    from today to that date. *)
Lemma get_payment_status_reads_as now v d :
  clock now -> reads_as v d ->
  get_payment_status now v =
    Ok (if days_between now d <? 0 then label Overdue
        else if days_between now d =? 0 then label DueToday
        else if days_between now d <=? 7 then label DueSoon
        else label Upcoming).
Proof.
  intros Hc (Hna & Hne & Hd & Hv). unfold get_payment_status.
  rewrite Hna, Hne, Hv, (Timestamp_of_date_clock now Hc). simpl.
  pose proof (midnight_lt d now) as Hlt. pose proof (midnight_eq d now) as Heq.
  unfold days_between.
  destruct (Z.ltb_spec (midnight d) (midnight now)) as [L|L].
  - destruct (Z.ltb_spec (toordinal d - toordinal now) 0); [reflexivity | lia].
  - destruct (Z.ltb_spec (toordinal d - toordinal now) 0); [lia|].
    destruct (Z.eqb_spec (midnight d) (midnight now)) as [E|E].
    + destruct (Z.eqb_spec (toordinal d - toordinal now) 0); [reflexivity | lia].
    + destruct (Z.eqb_spec (toordinal d - toordinal now) 0); [lia|].
      unfold Timestamp_sub.
      assert (in_bounds (midnight d - midnight now) = true) as ->.
      { apply to_datetime_bounds, in_bounds_spec in Hv.
        destruct Hc as (_ & Hepoch & _). apply in_bounds_spec. lia. }
      simpl. rewrite days_between_midnight. unfold days_between.
      destruct (_ <=? 7); reflexivity.
Qed.

Lemma get_payment_status_no_date now v :
  no_date v -> get_payment_status now v = Ok "Unknown"%string.
Proof.
  intros [-> | [-> | [e He]]]; [reflexivity..|].
  unfold get_payment_status. destruct (isna v || eq_text v ""); [reflexivity|].
  rewrite He. reflexivity.
Qed.

Lemma get_payment_status_returns now v : returns (get_payment_status now v).
Proof.
  unfold get_payment_status. destruct (isna v || eq_text v "").
  - eexists; reflexivity.
  - apply try_except_returns.
Qed.

(** The classifier only ever answers with one of the five labels. *)
Lemma get_payment_status_label now v :
  exists s, get_payment_status now v = Ok (label s).
Proof.
  unfold get_payment_status. destruct (isna v || eq_text v "").
  { exists Unknown. reflexivity. }
  destruct (to_datetime v) as [due|e]; [|exists Unknown; reflexivity].
  cbn [try_except mbind result_bind].
  destruct (Timestamp_of_date now) as [today|e]; [|exists Unknown; reflexivity].
  cbn [try_except mbind result_bind].
  destruct (datetime_lt due today); [exists Overdue; reflexivity|].
  destruct (datetime_eq due today); [exists DueToday; reflexivity|].
  destruct (datetime_sub due today) as [diff|e]; [|exists Unknown; reflexivity].
  cbn [try_except mbind result_bind]. destruct (number_le (days diff) 7);
    [exists DueSoon | exists Upcoming]; reflexivity.
Qed.

(** On a cell the parser reads as [NaT] every comparison of the classifier
    is [False], and the last branch answers. *)
Lemma get_payment_status_NaT now v :
  clock now -> isna v = false -> eq_text v "" = false ->
  to_datetime v = Ok NaT ->
  get_payment_status now v = Ok "Upcoming"%string.
Proof.
  intros Hc Hna Hne Hv. unfold get_payment_status.
  rewrite Hna, Hne, Hv, (Timestamp_of_date_clock now Hc). reflexivity.
Qed.

End Classifier.

(** ** Columns of a table *)

Lemma lookup_set_column_eq col cells cols :
  lookup_column col (set_column col cells cols) = Some cells.
Proof.
  induction cols as [|[c old] rest IH]; simpl.
  - rewrite String.eqb_refl. reflexivity.
  - destruct (String.eqb_spec c col) as [->|Hne]; simpl.
    + rewrite String.eqb_refl. reflexivity.
    + destruct (String.eqb_spec c col); [contradiction | exact IH].
Qed.

Lemma lookup_set_column_ne col col' cells cols :
  col <> col' ->
  lookup_column col' (set_column col cells cols) = lookup_column col' cols.
Proof.
  intros Hne. induction cols as [|[c old] rest IH]; simpl.
  - destruct (String.eqb_spec col col'); [contradiction | reflexivity].
  - destruct (String.eqb_spec c col) as [->|Hc]; simpl.
    + destruct (String.eqb_spec col col'); [contradiction | reflexivity].
    + destruct (String.eqb_spec c col'); [reflexivity | exact IH].
Qed.

Lemma set_column_twice col cells cells' cols :
  set_column col cells (set_column col cells' cols) = set_column col cells cols.
Proof.
  induction cols as [|[c old] rest IH]; simpl.
  - rewrite String.eqb_refl. reflexivity.
  - destruct (String.eqb_spec c col) as [->|Hc]; simpl.
    + rewrite String.eqb_refl. reflexivity.
    + destruct (String.eqb_spec c col); [contradiction|]. rewrite IH. reflexivity.
Qed.

Lemma lookup_column_elem_of col cells cols :
  lookup_column col cols = Some cells -> (col, cells) ∈ cols.
Proof.
  induction cols as [|[c old] rest IH]; simpl; [discriminate|].
  destruct (String.eqb_spec c col) as [->|Hc].
  - intros [= ->]. left.
  - intros Hl. right. exact (IH Hl).
Qed.

Lemma set_column_names col cells cols :
  (set_column col cells cols).*1 =
  match lookup_column col cols with
  | Some _ => cols.*1
  | None => cols.*1 ++ [col]
  end.
Proof.
  induction cols as [|[c old] rest IH]; cbn [set_column lookup_column];
    [reflexivity|].
  destruct (String.eqb_spec c col) as [->|Hc]; [reflexivity|].
  rewrite !fmap_cons, IH. destruct (lookup_column col rest); reflexivity.
Qed.

Lemma lookup_column_None col cols :
  lookup_column col cols = None -> col ∉ cols.*1.
Proof.
  induction cols as [|[c old] rest IH]; simpl.
  - intros _. apply not_elem_of_nil.
  - destruct (String.eqb_spec c col) as [->|Hc]; [discriminate|].
    intros Hl. apply not_elem_of_cons. split; [congruence | exact (IH Hl)].
Qed.

Lemma set_column_Forall (P : string * list value -> Prop) col cells cols :
  Forall P cols -> P (col, cells) -> Forall P (set_column col cells cols).
Proof.
  intros Hall Hnew. induction Hall as [|[c old] rest Hc Hrest IH]; simpl.
  - repeat constructor. exact Hnew.
  - destruct (String.eqb_spec c col) as [->|Hne]; constructor; assumption.
Qed.

Lemma setitem_table df col cells :
  table df -> length cells = len df -> table (setitem df col cells).
Proof.
  intros [Hlen Hnd] Hc. split; simpl.
  - apply set_column_Forall; assumption.
  - rewrite set_column_names. destruct (lookup_column col (columns df)) eqn:E.
    + exact Hnd.
    + apply NoDup_app. split; [exact Hnd|]. split.
      * intros x Hx Hin. apply list_elem_of_singleton in Hin. subst x.
        exact (lookup_column_None _ _ E Hx).
      * apply NoDup_singleton.
Qed.

Lemma table_column_length df col cells :
  table df -> lookup_column col (columns df) = Some cells ->
  length cells = len df.
Proof.
  intros [Hlen _] Hl. apply lookup_column_elem_of in Hl.
  rewrite Forall_forall in Hlen. exact (Hlen _ Hl).
Qed.

Lemma has_column_getitem df col :
  has_column df col = true -> exists cells, getitem df col = Ok cells /\
    lookup_column col (columns df) = Some cells.
Proof.
  unfold has_column, getitem. destruct (lookup_column col (columns df)) as [cells|].
  - intros _. exists cells. split; reflexivity.
  - discriminate.
Qed.

(** ** [apply] *)

Lemma apply_cons {A B} (f : A -> result B) x cells :
  apply f (x :: cells) = (y ← f x; k ← apply f cells; Ok (y :: k)).
Proof. reflexivity. Qed.

Lemma apply_Forall2 {A B} (f : A -> result B) cells out :
  apply f cells = Ok out <-> Forall2 (fun x y => f x = Ok y) cells out.
Proof.
  revert out. induction cells as [|x cells IH]; intros out.
  - split.
    + intros [= <-]. constructor.
    + intros Hf. inversion Hf. reflexivity.
  - rewrite apply_cons. split.
    + destruct (f x) as [y|e] eqn:Ey; simpl; [|discriminate].
      destruct (apply f cells) as [k|e] eqn:Ek; simpl; [|discriminate].
      intros [= <-]. constructor; [exact Ey|]. apply IH. reflexivity.
    + intros Hf. inversion Hf as [|? y ? k Ey Hk]; subst.
      rewrite Ey. simpl. apply IH in Hk. rewrite Hk. reflexivity.
Qed.

Lemma apply_returns {A B} (f : A -> result B) cells :
  (forall x, returns (f x)) -> returns (apply f cells).
Proof.
  intros Hf. induction cells as [|x cells [k IH]].
  - exists []. reflexivity.
  - destruct (Hf x) as [y Ey]. exists (y :: k).
    rewrite apply_cons, Ey. simpl. rewrite IH. reflexivity.
Qed.

(** ** Recomputing the status column *)

Section Recompute.

Context `{Parser}.

Lemma recompute_statuses_Ok now df due :
  getitem df "Next Payment Due Date" = Ok due ->
  exists status,
    apply (get_payment_status now) due = Ok status /\
    recompute_statuses now df
    = Ok (setitem df "Payment Status" (Str <$> status)).
Proof.
  intros Hdue.
  destruct (apply_returns (get_payment_status now) due
              (get_payment_status_returns now)) as [status Hs].
  exists status. split; [exact Hs|].
  unfold recompute_statuses. rewrite Hdue. simpl. rewrite Hs. reflexivity.
Qed.

Lemma getitem_setitem_ne df col col' cells :
  col <> col' -> getitem (setitem df col cells) col' = getitem df col'.
Proof.
  intros Hne. unfold getitem, setitem. simpl.
  rewrite lookup_set_column_ne by assumption. reflexivity.
Qed.

Lemma getitem_setitem_eq df col cells :
  getitem (setitem df col cells) col = Ok cells.
Proof. unfold getitem, setitem. simpl. rewrite lookup_set_column_eq. reflexivity. Qed.

Lemma setitem_twice df col cells cells' :
  setitem (setitem df col cells') col cells = setitem df col cells.
Proof. unfold setitem. simpl. rewrite set_column_twice. reflexivity. Qed.

End Recompute.

(** ** Counting the statuses *)

Lemma get_fmap (g : value -> nat) keys key default :
  get ((fun v => (v, g v)) <$> keys) key default
  = if decide (key ∈ keys) then g key else default.
Proof.
  induction keys as [|k keys IH]; [|rewrite fmap_cons; cbn [get]].
  - destruct (decide (key ∈ [])) as [Hin|]; [|reflexivity].
    apply elem_of_nil in Hin. contradiction.
  - destruct (decide (k = key)) as [->|Hne].
    + destruct (decide (key ∈ key :: keys)) as [|Hnin]; [reflexivity|].
      exfalso. apply Hnin. left.
    + rewrite IH. destruct (decide (key ∈ keys)) as [Hin|Hnin];
        destruct (decide (key ∈ k :: keys)) as [Hin'|Hnin']; try reflexivity.
      * exfalso. apply Hnin'. right. exact Hin.
      * exfalso. apply elem_of_cons in Hin' as [->|Hin']; contradiction.
Qed.

Lemma occurrences_not_elem_of v cells : v ∉ cells -> occurrences v cells = 0%nat.
Proof.
  intros Hnin. unfold occurrences. induction cells as [|x cells IH]; [reflexivity|].
  apply not_elem_of_cons in Hnin as [Hne Hnin].
  rewrite filter_cons_False by congruence. exact (IH Hnin).
Qed.

Lemma occurrences_present v cells :
  isna v = false ->
  occurrences v (filter (fun x => isna x = false) cells) = occurrences v cells.
Proof.
  intros Hv. unfold occurrences. induction cells as [|x cells IH]; [reflexivity|].
  destruct (decide (isna x = false)) as [Hx|Hx].
  - rewrite (filter_cons_True (fun x => isna x = false)) by exact Hx.
    destruct (decide (x = v)) as [->|Hne].
    + rewrite !(filter_cons_True (fun x => x = v)) by reflexivity.
      simpl. rewrite IH. reflexivity.
    + rewrite !(filter_cons_False (fun x => x = v)) by exact Hne. exact IH.
  - rewrite (filter_cons_False (fun x => isna x = false)) by exact Hx.
    rewrite (filter_cons_False (fun x => x = v)); [exact IH|].
    intros ->. contradiction.
Qed.

(** Looking a value up in the counts gives how often it occurs. *)
Lemma get_value_counts v cells :
  isna v = false -> get (value_counts cells) v 0%nat = occurrences v cells.
Proof.
  intros Hv. unfold value_counts. cbv zeta.
  rewrite (get_fmap (fun v => occurrences v (filter (fun x => isna x = false) cells))).
  destruct (decide (v ∈ remove_dups (filter (fun x => isna x = false) cells)))
    as [Hin|Hnin].
  - apply occurrences_present, Hv.
  - rewrite elem_of_remove_dups in Hnin.
    rewrite <- (occurrences_present v cells Hv).
    symmetry. apply occurrences_not_elem_of, Hnin.
Qed.

(** Over a column of status labels, the five counts add up to its length. *)
Lemma occurrences_statuses (status : list string) :
  Forall (fun s => exists st, s = label st) status ->
  (occurrences (Str "Unknown") (Str <$> status)
   + occurrences (Str "Overdue") (Str <$> status)
   + occurrences (Str "Due Today") (Str <$> status)
   + occurrences (Str "Due Soon") (Str <$> status)
   + occurrences (Str "Upcoming") (Str <$> status))%nat
  = length status.
Proof.
  unfold occurrences. induction 1 as [|s status [st ->] _ IH]; [reflexivity|].
  rewrite fmap_cons. cbn [length]. rewrite <- IH. clear IH.
  destruct st; cbn [label];
    repeat first
      [ rewrite (filter_cons_True (fun x => x = Str _)) by reflexivity
      | rewrite (filter_cons_False (fun x => x = Str _)) by discriminate ];
    cbn [length]; lia.
Qed.

(** ** Dropping a row *)

Lemma keep_all {A} (labels : list Z) (label : Z) (l : list A) :
  label ∉ labels -> (length l <= length labels)%nat ->
  keep ((fun x => negb (x =? label)) <$> labels) l = l.
Proof.
  revert l. induction labels as [|x labels IH]; intros l Hnin Hlen.
  - destruct l; [reflexivity | simpl in Hlen; lia].
  - apply not_elem_of_cons in Hnin as [Hne Hnin].
    destruct l as [|a l]; [reflexivity|]. rewrite fmap_cons. cbn [keep].
    destruct (Z.eqb_spec x label); [congruence|]. cbn [negb].
    rewrite IH; [reflexivity | exact Hnin | simpl in Hlen; lia].
Qed.

(** On the labels m, m+1, ... dropping the label [i] is deleting the entry
    at position [i - m]. *)
Lemma keep_seqZ {A} (l : list A) m n i :
  Z.of_nat (length l) <= n -> m <= i < m + n ->
  keep ((fun x => negb (x =? i)) <$> seqZ m n) l = delete (Z.to_nat (i - m)) l.
Proof.
  revert m n. induction l as [|a l IH]; intros m n Hlen Hi.
  - destruct (_ <$> _); reflexivity.
  - cbn [length] in Hlen.
    rewrite seqZ_cons by lia. rewrite fmap_cons. cbn [keep].
    destruct (Z.eqb_spec m i) as [->|Hne]; cbn [negb].
    + replace (i - i) with 0 by lia.
      change (delete (Z.to_nat 0) (a :: l)) with l.
      apply keep_all.
      * rewrite elem_of_seqZ. lia.
      * rewrite length_seqZ. lia.
    + rewrite IH by lia.
      replace (Z.to_nat (i - m)) with (S (Z.to_nat (i - Z.succ m))) by lia.
      reflexivity.
Qed.

Lemma existsb_RangeIndex n i :
  existsb (Z.eqb i) (RangeIndex n) = true <-> 0 <= i < Z.of_nat n.
Proof.
  unfold RangeIndex. rewrite existsb_exists. split.
  - intros (x & Hin & Heq). apply Z.eqb_eq in Heq. subst x.
    apply list_elem_of_In, elem_of_seqZ in Hin. lia.
  - intros Hi. exists i. split; [|apply Z.eqb_refl].
    apply list_elem_of_In, elem_of_seqZ. lia.
Qed.

Lemma len_RangeIndex n : length (RangeIndex n) = n.
Proof. unfold RangeIndex. rewrite length_seqZ. lia. Qed.

(** On a table with the labels 0, 1, 2, ... [drop] deletes the row at the
    position of the label. *)
Lemma drop_RangeIndex df n i :
  table df -> index df = RangeIndex n -> 0 <= i < Z.of_nat n ->
  drop df i =
    Ok (mkDataFrame (delete (Z.to_nat i) (index df))
          ((fun c => (c.1, delete (Z.to_nat i) c.2)) <$> columns df)).
Proof.
  intros [Hlen _] Hidx Hi. unfold drop.
  assert (existsb (Z.eqb i) (index df) = true) as ->
    by (rewrite Hidx; apply existsb_RangeIndex, Hi).
  assert (len df = n) as Hn by (unfold len; rewrite Hidx; apply len_RangeIndex).
  f_equal. f_equal.
  - rewrite Hidx. unfold RangeIndex.
    rewrite keep_seqZ by (rewrite ?length_seqZ; lia).
    f_equal. lia.
  - apply Forall_fmap_ext. eapply Forall_impl; [exact Hlen|].
    intros [c cells] Hc. simpl in *. f_equal.
    rewrite Hidx. unfold RangeIndex. rewrite keep_seqZ by lia. f_equal. lia.
Qed.

Lemma drop_missing df n i :
  index df = RangeIndex n -> i < 0 \/ Z.of_nat n <= i ->
  drop df i = Raise KeyError.
Proof.
  intros Hidx Hi. unfold drop.
  destruct (existsb (Z.eqb i) (index df)) eqn:E; [|reflexivity].
  rewrite Hidx in E. apply existsb_RangeIndex in E. lia.
Qed.

(** ** Loading the history *)

Lemma add_missing_index df cols : index (foldl add_missing df cols) = index df.
Proof.
  revert df. induction cols as [|col cols IH]; intros df; [reflexivity|].
  simpl. rewrite IH. unfold add_missing. destruct (has_column df col); reflexivity.
Qed.

(** A column that is there stays as it is. *)
Lemma add_missing_keeps df cols col cells :
  lookup_column col (columns df) = Some cells ->
  lookup_column col (columns (foldl add_missing df cols)) = Some cells.
Proof.
  revert df. induction cols as [|c cols IH]; intros df Hl; [exact Hl|].
  simpl. apply IH. unfold add_missing, has_column.
  destruct (lookup_column c (columns df)) eqn:E; simpl; [exact Hl|].
  rewrite lookup_set_column_ne; [exact Hl|]. intros ->. congruence.
Qed.

(** A column that is asked for and not there is added, empty text in every
    row. *)
Lemma add_missing_adds df cols col :
  col ∈ cols -> lookup_column col (columns df) = None ->
  lookup_column col (columns (foldl add_missing df cols))
  = Some (replicate (len df) (Str "")).
Proof.
  revert df. induction cols as [|c cols IH]; intros df Hin Hl.
  - apply elem_of_nil in Hin. contradiction.
  - simpl. destruct (String.eqb_spec c col) as [->|Hne].
    + apply add_missing_keeps. unfold add_missing, has_column. rewrite Hl. simpl.
      apply lookup_set_column_eq.
    + apply elem_of_cons in Hin as [->|Hin]; [contradiction|].
      unfold add_missing at 2, has_column. destruct (lookup_column c (columns df)) eqn:E; simpl.
      * apply IH; assumption.
      * rewrite IH; [reflexivity | exact Hin |].
        simpl. rewrite lookup_set_column_ne by exact Hne. exact Hl.
Qed.

Lemma add_missing_table df cols : table df -> table (foldl add_missing df cols).
Proof.
  revert df. induction cols as [|c cols IH]; intros df Ht; [exact Ht|].
  simpl. apply IH. unfold add_missing. destruct (has_column df c); simpl; [exact Ht|].
  apply setitem_table; [exact Ht | apply length_replicate].
Qed.

(** ** The ISO parser reads what [strftime] writes *)

Lemma digit_value_digit n : digit_value (digit n) = Some (n mod 10).
Proof.
  unfold digit_value, digit. cbv zeta.
  pose proof (Z.mod_pos_bound n 10 ltac:(lia)) as Hm.
  rewrite nat_ascii_embedding by lia.
  replace (Z.of_nat (48 + Z.to_nat (n mod 10))) with (48 + n mod 10) by lia.
  destruct (Z.leb_spec 48 (48 + n mod 10)); [|lia].
  destruct (Z.leb_spec (48 + n mod 10) 57); [|lia].
  simpl. f_equal. lia.
Qed.

Lemma number2_pad n :
  0 <= n < 100 -> number2 (digit (n / 10)) (digit n) = Some n.
Proof.
  intros Hn. unfold number2. rewrite !digit_value_digit. simpl. f_equal.
  Z.to_euclidean_division_equations. lia.
Qed.

Lemma number4_pad n :
  0 <= n < 10000 ->
  number4 (digit (n / 1000)) (digit (n / 100)) (digit (n / 10)) (digit n)
  = Some n.
Proof.
  intros Hn. unfold number4, number2. rewrite !digit_value_digit. simpl. f_equal.
  Z.to_euclidean_division_equations. lia.
Qed.

Lemma days_in_month_le y m : days_in_month y m <= 31.
Proof.
  unfold days_in_month. destruct ((m =? 2) && is_leap y); [lia|].
  unfold DAYS_IN_MONTH.
  repeat match goal with
         | |- context [match ?x with _ => _ end] => destruct x
         end; lia.
Qed.

Lemma strftime_chars d :
  strftime d =
  String (digit (year d / 1000)) (String (digit (year d / 100))
    (String (digit (year d / 10)) (String (digit (year d))
      (String "-" (String (digit (month d / 10)) (String (digit (month d))
        (String "-" (String (digit (day d / 10)) (String (digit (day d))
          EmptyString))))))))).
Proof. reflexivity. Qed.

Lemma parse_ymd_chars y1 y2 y3 y4 m1 m2 d1 d2 :
  parse_ymd
    (String y1 (String y2 (String y3 (String y4 (String "-"
       (String m1 (String m2 (String "-"
          (String d1 (String d2 EmptyString))))))))))
  = (y ← number4 y1 y2 y3 y4; m ← number2 m1 m2; d ← number2 d1 d2;
     if valid (mkdate y m d) then Some (mkdate y m d) else None).
Proof. reflexivity. Qed.

Lemma parse_ymd_strftime d : valid d = true -> parse_ymd (strftime d) = Some d.
Proof.
  intros Hv. pose proof Hv as Hv'. apply valid_spec in Hv' as [Hy Hw].
  apply well_formed_spec in Hw as [Hm Hd].
  pose proof (days_in_month_le (year d) (month d)).
  rewrite strftime_chars, parse_ymd_chars.
  rewrite number4_pad by lia. rewrite !number2_pad by lia.
  destruct d as [y m dd]. cbn [year month day mbind option_bind].
  unfold mbind, option_bind. rewrite Hv. reflexivity.
Qed.

Lemma strftime_length d : String.length (strftime d) = 10%nat.
Proof. rewrite strftime_chars. reflexivity. Qed.

(** A date as the application writes it is none of the texts read as
    [NaT]. *)
Lemma strftime_not_NaT d :
  String.eqb (strftime d) "" || existsb (String.eqb (strftime d)) nat_strings
  = false.
Proof.
  assert (forall t, String.length t <> 10%nat ->
                    String.eqb (strftime d) t = false) as Hne.
  { intros t Ht. apply String.eqb_neq. intros E. apply Ht. rewrite <- E.
    apply strftime_length. }
  unfold nat_strings. cbn [existsb].
  rewrite !Hne by (vm_compute; discriminate). reflexivity.
Qed.

Lemma iso_reads_as d :
  valid d = true -> representable d -> reads_as (Str (strftime d)) d.
Proof.
  intros Hv Hr. unfold reads_as.
  split; [reflexivity|]. split; [rewrite strftime_chars; reflexivity|].
  split; [apply valid_spec in Hv; tauto|].
  change (to_datetime (Str (strftime d))) with (iso_to_datetime (Str (strftime d))).
  unfold iso_to_datetime. rewrite strftime_not_NaT.
  rewrite parse_ymd_strftime by assumption.
  unfold Timestamp_of_date. rewrite Hr. reflexivity.
Qed.

(* ================================================================== *)
(** * The properties of the specification *)
(* ================================================================== *)

Lemma representable_ordinal d :
  representable d -> 0 < toordinal d <= MAXORDINAL.
Proof.
  unfold representable. rewrite in_bounds_spec.
  unfold midnight, INT64_MAX, NS_PER_DAY, EPOCH_ORDINAL, MAXORDINAL. lia.
Qed.

(** C1. For a due date that parses as a calendar date, and a clock that
    shows a date a timestamp can hold, the classifier answers Overdue exactly
    when the due date lies before today, Due Today exactly when it is today,
    Due Soon exactly when it lies one to seven days ahead and Upcoming
    exactly when it lies more than seven days ahead; it never answers
    Unknown; seven days ahead is Due Soon and eight days ahead is Upcoming. *)
Theorem get_payment_status_classifies `{Parser} now v d :
  clock now -> reads_as v d ->
  let status := get_payment_status now v in
  (status = Ok (label Overdue) <-> date_lt d now) /\
  (status = Ok (label DueToday) <-> d = now) /\
  (status = Ok (label DueSoon) <-> 0 < days_between now d <= 7) /\
  (status = Ok (label Upcoming) <-> 7 < days_between now d) /\
  status <> Ok (label Unknown) /\
  (d = advance now 7 -> status = Ok (label DueSoon)) /\
  (d = advance now 8 -> status = Ok (label Upcoming)).
Proof.
  intros Hc Hr status. subst status.
  rewrite (get_payment_status_reads_as now v d Hc Hr).
  assert (d = now <-> days_between now d = 0) as Hsame.
  { unfold days_between. split; [intros ->; lia|]. intros E.
    destruct Hc as (Hn & _). destruct Hr as (_ & _ & Hd & _).
    apply toordinal_injective; [assumption..|lia]. }
  assert (forall n, d = advance now n -> days_between now d = n) as Hadv.
  { intros n ->. destruct Hc as (Hn & _). unfold days_between.
    destruct (advance_spec now n Hn) as [-> _]. lia. }
  rewrite Hsame.
  rewrite <- (toordinal_lt d now)
    by (destruct Hc as (Hn & _); destruct Hr as (_ & _ & Hd & _); assumption).
  unfold days_between in *.
  destruct (Z.ltb_spec (toordinal d - toordinal now) 0);
    [|destruct (Z.eqb_spec (toordinal d - toordinal now) 0);
      [|destruct (Z.leb_spec (toordinal d - toordinal now) 7)]];
    (repeat split; try discriminate; try lia; try reflexivity;
     try (intros E; apply Hadv in E; lia)).
Qed.

Lemma get_payment_status_classifies_witness :
  clock (mkdate 2024 6 10) /\
  reads_as (Str "2024-06-15") (mkdate 2024 6 15) /\
  get_payment_status (mkdate 2024 6 10) (Str "2024-06-15") = Ok (label DueSoon).
Proof.
  assert (clock (mkdate 2024 6 10)) as Hc.
  { repeat split; vm_compute; congruence. }
  assert (reads_as (Str "2024-06-15") (mkdate 2024 6 15)) as Hr.
  { repeat split. }
  split; [exact Hc|]. split; [exact Hr|].
  destruct (get_payment_status_classifies (mkdate 2024 6 10) (Str "2024-06-15")
              (mkdate 2024 6 15) Hc Hr) as (_ & _ & [_ Hsoon] & _).
  apply Hsoon. vm_compute. split; congruence.
Defined.

(** C2, as the claim states it, fails: a frequency of 1000000000 days is a
    positive integer, [timedelta] refuses it, the bare [except] catches that,
    and the calculator answers with the empty text instead of the advanced
    date. *)
Lemma calculate_due_date_large_frequency :
  reads_as (Str "2024-01-01") (mkdate 2024 1 1) /\
  valid (mkdate 2024 1 1) = true /\
  0 < 1000000000 /\
  calculate_due_date (Str "2024-01-01") 1000000000 = Ok ""%string /\
  calculate_due_date (Str "2024-01-01") 1000000000
  <> Ok (strftime (advance (mkdate 2024 1 1) 1000000000)).
Proof.
  assert (calculate_due_date (Str "2024-01-01") 1000000000 = Ok ""%string) as E
    by (vm_compute; reflexivity).
  split; [repeat split|]. split; [reflexivity|]. split; [lia|].
  split; [exact E|]. rewrite E. intros Hs.
  apply (strftime_nonempty (advance (mkdate 2024 1 1) 1000000000)).
  congruence.
Qed.

(** C2, amended.  For a cell that reads as the calendar date [d] and a
    positive frequency [f] of at most 106751 days, such that [d] advanced by
    [f] days is still a date a timestamp holds, the calculator returns [d]
    advanced by exactly [f] calendar days, and so does the due date [main]
    computes on the date itself; a missing or empty reference date gives the
    empty due date. *)
Theorem calculate_due_date_advances `{Parser} v d f :
  reads_as v d -> 0 < f <= MAX_TIMEDELTA_DAYS -> representable (advance d f) ->
  calculate_due_date v f = Ok (strftime (Z.iter f next_day d)) /\
  Next_Payment_Due_Date (Some d) f = Ok (strftime (Z.iter f next_day d)) /\
  calculate_due_date NaN f = Ok ""%string /\
  calculate_due_date (Str "") f = Ok ""%string /\
  Next_Payment_Due_Date None f = Ok ""%string.
Proof.
  intros Hr Hf Hrep.
  assert (Z.iter f next_day d = advance d f) as ->.
  { unfold advance. destruct (Z.leb_spec 0 f); [reflexivity | lia]. }
  split; [|split; [|repeat split]].
  - apply calculate_due_date_shift; [assumption | lia | assumption].
  - destruct Hr as (_ & _ & Hd & _).
    pose proof (representable_ordinal _ Hrep) as Ho.
    destruct (advance_spec d f Hd) as [E _]. rewrite E in Ho.
    apply Next_Payment_Due_Date_shift;
      [assumption | unfold MAX_TIMEDELTA_DAYS in Hf; lia | assumption].
Qed.

Lemma calculate_due_date_advances_witness :
  reads_as (Str "2024-05-01") (mkdate 2024 5 1) /\
  0 < 30 <= MAX_TIMEDELTA_DAYS /\
  representable (advance (mkdate 2024 5 1) 30) /\
  calculate_due_date (Str "2024-05-01") 30 = Ok "2024-05-31"%string /\
  Next_Payment_Due_Date (Some (mkdate 2024 5 1)) 30 = Ok "2024-05-31"%string.
Proof.
  assert (reads_as (Str "2024-05-01") (mkdate 2024 5 1)) as Hr by (repeat split).
  assert (0 < 30 <= MAX_TIMEDELTA_DAYS) as Hf by (vm_compute; split; congruence).
  assert (representable (advance (mkdate 2024 5 1) 30)) as Hrep by reflexivity.
  destruct (calculate_due_date_advances (Str "2024-05-01") (mkdate 2024 5 1) 30
              Hr Hf Hrep) as (Hc & Hm & _).
  split; [exact Hr|]. split; [exact Hf|]. split; [exact Hrep|].
  split; [exact Hc | exact Hm].
Defined.

(** C10, as the claim states it, fails: a frequency of -1000000000 days is an
    integer, [timedelta] refuses it, and the calculator answers with the
    empty text instead of a date shifted backwards. *)
Lemma calculate_due_date_large_negative_frequency :
  reads_as (Str "2024-01-01") (mkdate 2024 1 1) /\
  calculate_due_date (Str "2024-01-01") (-1000000000) = Ok ""%string /\
  calculate_due_date (Str "2024-01-01") (-1000000000)
  <> Ok (strftime (advance (mkdate 2024 1 1) (-1000000000))).
Proof.
  assert (calculate_due_date (Str "2024-01-01") (-1000000000) = Ok ""%string)
    as E by (vm_compute; reflexivity).
  split; [repeat split|]. split; [exact E|]. rewrite E. intros Hs.
  apply (strftime_nonempty (advance (mkdate 2024 1 1) (-1000000000))).
  congruence.
Qed.

(** C10, amended.  The calculator does not ask for a positive frequency:
    for a cell that reads as the calendar date [d] and an integer [f],
    positive, zero or negative, of at most 106751 days either way, such that
    [d] shifted by [f] days is still a date a timestamp holds, it returns [d]
    shifted by exactly [f] calendar days: [d] itself for zero, and [-f] days
    back for a negative [f]. *)
Theorem calculate_due_date_any_sign `{Parser} v d f :
  reads_as v d -> Z.abs f <= MAX_TIMEDELTA_DAYS -> representable (advance d f) ->
  calculate_due_date v f = Ok (strftime (advance d f)) /\
  days_between d (advance d f) = f /\
  (f = 0 -> advance d f = d) /\
  (f < 0 -> advance d f = Z.iter (- f) prev_day d) /\
  (0 < f -> advance d f = Z.iter f next_day d).
Proof.
  intros Hr Hf Hrep. split; [apply calculate_due_date_shift; assumption|].
  destruct Hr as (_ & _ & Hd & _). split.
  - unfold days_between. destruct (advance_spec d f Hd) as [-> _]. lia.
  - unfold advance. repeat split.
    + intros ->. reflexivity.
    + intros Hneg. destruct (Z.leb_spec 0 f); [lia | reflexivity].
    + intros Hpos. destruct (Z.leb_spec 0 f); [reflexivity | lia].
Qed.

Lemma calculate_due_date_any_sign_witness :
  reads_as (Str "2024-05-01") (mkdate 2024 5 1) /\
  Z.abs (-30) <= MAX_TIMEDELTA_DAYS /\
  representable (advance (mkdate 2024 5 1) (-30)) /\
  calculate_due_date (Str "2024-05-01") (-30) = Ok "2024-04-01"%string.
Proof.
  assert (reads_as (Str "2024-05-01") (mkdate 2024 5 1)) as Hr by (repeat split).
  assert (Z.abs (-30) <= MAX_TIMEDELTA_DAYS) as Hf by (vm_compute; congruence).
  assert (representable (advance (mkdate 2024 5 1) (-30))) as Hrep by reflexivity.
  destruct (calculate_due_date_any_sign (Str "2024-05-01") (mkdate 2024 5 1) (-30)
              Hr Hf Hrep) as (Hc & _).
  split; [exact Hr|]. split; [exact Hf|]. split; [exact Hrep | exact Hc].
Defined.

(** C7 fails on the code, by a case the classifier misses.  A cell the
    parser reads as [NaT], as pandas does the text "NaT", is not missing and
    not empty, and reading it does not raise; every comparison with it is
    [False], so the classifier falls through to its last branch and answers
    Upcoming, not Unknown.  The calculator does give the empty due date for
    such a cell. *)
Theorem get_payment_status_not_a_time `{Parser} now v f :
  clock now -> isna v = false -> eq_text v "" = false ->
  to_datetime v = Ok NaT ->
  get_payment_status now v = Ok (label Upcoming) /\
  get_payment_status now v <> Ok (label Unknown) /\
  calculate_due_date v f = Ok ""%string.
Proof.
  intros Hc Hna Hne Hv.
  rewrite (get_payment_status_NaT now v Hc Hna Hne Hv).
  split; [reflexivity|]. split; [discriminate|].
  apply calculate_due_date_NaT, Hv.
Qed.

Lemma get_payment_status_not_a_time_witness :
  let now := mkdate 2024 6 10 in
  clock now /\ isna (Str "NaT") = false /\ eq_text (Str "NaT") "" = false /\
  to_datetime (Str "NaT") = Ok NaT /\
  get_payment_status now (Str "NaT") = Ok "Upcoming"%string /\
  calculate_due_date (Str "NaT") 30 = Ok ""%string.
Proof.
  intros now.
  assert (clock now) as Hc by (repeat split; vm_compute; congruence).
  assert (isna (Str "NaT") = false) as Hna by reflexivity.
  assert (eq_text (Str "NaT") "" = false) as Hne by reflexivity.
  assert (to_datetime (Str "NaT") = Ok NaT) as Hv by reflexivity.
  destruct (get_payment_status_not_a_time now (Str "NaT") 30 Hc Hna Hne Hv)
    as (Hstatus & _ & Hdue).
  split; [exact Hc|]. split; [exact Hna|]. split; [exact Hne|].
  split; [exact Hv|]. split; [exact Hstatus | exact Hdue].
Defined.

(** C3. On a table that has the due-date column, recomputing the statuses
    succeeds and leaves every row with the status the classifier gives for
    the due date stored in that row; the due dates themselves stay as they
    were. *)
Theorem recompute_statuses_classifies `{Parser} now df :
  table df -> has_column df "Next Payment Due Date" = true ->
  exists df',
    recompute_statuses now df = Ok df' /\
    len df' = len df /\
    forall i, (i < len df)%nat ->
      exists due status,
        cell df "Next Payment Due Date" i = Some due /\
        cell df' "Next Payment Due Date" i = Some due /\
        get_payment_status now due = Ok status /\
        cell df' "Payment Status" i = Some (Str status).
Proof.
  intros Ht Hcol.
  destruct (has_column_getitem _ _ Hcol) as (cells & Hget & Hlook).
  destruct (recompute_statuses_Ok now df cells Hget) as (status & Happ & Hre).
  exists (setitem df "Payment Status" (Str <$> status)).
  split; [exact Hre|]. split; [reflexivity|].
  intros i Hi. apply apply_Forall2 in Happ.
  pose proof (table_column_length _ _ _ Ht Hlook) as Hlen.
  destruct (lookup_lt_is_Some_2 cells i ltac:(lia)) as [due Hdue].
  destruct (Forall2_lookup_l _ _ _ _ _ Happ Hdue) as (s & Hs & Hfs).
  exists due, s. unfold cell, setitem. cbn [columns].
  rewrite lookup_set_column_ne by discriminate.
  rewrite lookup_set_column_eq, Hlook. cbn [mbind option_bind].
  rewrite list_lookup_fmap, Hs. repeat split; assumption.
Qed.

Lemma recompute_statuses_classifies_witness :
  let df := mkDataFrame [0; 1]
              [("Tenant Name", [Str "Asha"; Str "Ravi"]);
               ("Next Payment Due Date", [Str "2024-05-31"; NaN])]%string in
  table df /\
  has_column df "Next Payment Due Date" = true /\
  exists df',
    recompute_statuses (mkdate 2024 6 10) df = Ok df' /\
    cell df' "Payment Status" 0 = Some (Str "Overdue") /\
    cell df' "Payment Status" 1 = Some (Str "Unknown").
Proof.
  intros df.
  assert (table df) as Ht.
  { split.
    - repeat constructor.
    - apply (bool_decide_unpack _). reflexivity. }
  assert (has_column df "Next Payment Due Date" = true) as Hc by reflexivity.
  split; [exact Ht|]. split; [exact Hc|].
  destruct (recompute_statuses_classifies (mkdate 2024 6 10) df Ht Hc)
    as (df' & Hre & _ & Hrows).
  exists df'. split; [exact Hre|].
  destruct (Hrows 0%nat ltac:(cbn; lia)) as (due0 & s0 & Hd0 & _ & Hs0 & Hc0).
  destruct (Hrows 1%nat ltac:(cbn; lia)) as (due1 & s1 & Hd1 & _ & Hs1 & Hc1).
  injection Hd0 as <-. injection Hd1 as <-.
  injection Hs0 as <-. injection Hs1 as <-.
  split; assumption.
Defined.

Lemma recompute_statuses_again `{Parser} now df df1 :
  recompute_statuses now df = Ok df1 -> recompute_statuses now df1 = Ok df1.
Proof.
  unfold recompute_statuses.
  destruct (getitem df "Next Payment Due Date") as [due|e] eqn:Hdue;
    [|discriminate].
  cbn [mbind result_bind].
  destruct (apply (get_payment_status now) due) as [status|e] eqn:Hs;
    [|discriminate].
  cbn [mbind result_bind]. intros [= <-].
  rewrite getitem_setitem_ne by discriminate. rewrite Hdue.
  cbn [mbind result_bind]. rewrite Hs. cbn [mbind result_bind].
  rewrite setitem_twice. reflexivity.
Qed.

(** C9. Recomputing the statuses twice with the same clock gives the very
    table that recomputing them once gives: a second pass changes no status
    of any row. *)
Theorem recompute_statuses_idempotent `{Parser} now df :
  (recompute_statuses now df ≫= recompute_statuses now)
  = recompute_statuses now df.
Proof.
  destruct (recompute_statuses now df) as [df1|e] eqn:E; [|reflexivity].
  cbn [mbind result_bind]. exact (recompute_statuses_again now df df1 E).
Qed.

Lemma row_delete df i j :
  row (mkDataFrame (delete i (index df))
         ((fun c => (c.1, delete i c.2)) <$> columns df)) j
  = if decide (j < i)%nat then row df j else row df (S j).
Proof.
  unfold row. cbn [columns]. rewrite <- list_fmap_compose.
  destruct (decide (j < i)%nat);
    apply list_fmap_ext; intros k [c cells] _; cbn [compose fst snd].
  - rewrite list_lookup_delete_lt by assumption. reflexivity.
  - rewrite list_lookup_delete_ge by lia. reflexivity.
Qed.

Lemma len_reset_index df : len (reset_index df) = len df.
Proof. unfold len, reset_index. cbn [index]. apply len_RangeIndex. Qed.

Lemma index_reset_index df : index (reset_index df) = RangeIndex (len df).
Proof. reflexivity. Qed.

Lemma row_reset_index df j : row (reset_index df) j = row df j.
Proof. reflexivity. Qed.

(** C4. On a table of [n] rows labelled 0 to [n - 1], deleting at an index
    [i] with [0 <= i < n] succeeds, leaves [n - 1] rows labelled 0 to
    [n - 2], keeps the rows before position [i] where they were and as they
    were, and moves every later row one position down; nothing else is
    removed.  The history file is written with the new table. *)
Theorem delete_row_removes s n i :
  table (history_df s) -> index (history_df s) = RangeIndex n ->
  0 <= i < Z.of_nat n ->
  exists s',
    delete_row i s = (Ok (), s') /\
    len (history_df s') = (n - 1)%nat /\
    index (history_df s') = RangeIndex (n - 1) /\
    (forall j, (j < Z.to_nat i)%nat ->
       row (history_df s') j = row (history_df s) j) /\
    (forall j, (Z.to_nat i <= j)%nat ->
       row (history_df s') j = row (history_df s) (S j)) /\
    HISTORY_FILE s' = Some (history_df s') /\
    notices s' = notices s ++ [Row_deleted i].
Proof.
  intros Ht Hidx Hi. unfold delete_row.
  rewrite (drop_RangeIndex _ n i Ht Hidx Hi).
  set (dropped := mkDataFrame _ _).
  exists (mkSession (reset_index dropped) (Some (reset_index dropped))
            (notices s ++ [Row_deleted i])).
  split; [reflexivity|]. cbn [history_df HISTORY_FILE notices].
  assert (len dropped = (n - 1)%nat) as Hlen.
  { unfold len, dropped. cbn [index]. rewrite length_delete.
    - rewrite Hidx, len_RangeIndex. lia.
    - apply lookup_lt_is_Some_2. rewrite Hidx, len_RangeIndex. lia. }
  split; [rewrite len_reset_index; exact Hlen|].
  split; [rewrite index_reset_index, Hlen; reflexivity|].
  split; [|split; [|split; reflexivity]].
  - intros j Hj. rewrite row_reset_index. unfold dropped. rewrite row_delete.
    destruct (decide (j < Z.to_nat i)%nat); [reflexivity | lia].
  - intros j Hj. rewrite row_reset_index. unfold dropped. rewrite row_delete.
    destruct (decide (j < Z.to_nat i)%nat); [lia | reflexivity].
Qed.

Lemma delete_row_removes_witness :
  let df := mkDataFrame [0; 1; 2]
              [("Tenant Name", [Str "Asha"; Str "Ravi"; Str "Mina"]);
               ("Payment Status", [Str "Overdue"; Str "Unknown"; Str "Upcoming"])]%string in
  let s := mkSession df (Some df) [] in
  table (history_df s) /\ index (history_df s) = RangeIndex 3 /\
  0 <= 1 < Z.of_nat 3 /\
  exists s',
    delete_row 1 s = (Ok (), s') /\
    len (history_df s') = 2%nat /\
    row (history_df s') 0 = row df 0 /\
    row (history_df s') 1 = row df 2.
Proof.
  intros df s.
  assert (table (history_df s)) as Ht.
  { split.
    - repeat constructor.
    - apply (bool_decide_unpack _). reflexivity. }
  assert (index (history_df s) = RangeIndex 3) as Hidx by reflexivity.
  assert (0 <= 1 < Z.of_nat 3) as Hi by (vm_compute; split; congruence).
  split; [exact Ht|]. split; [exact Hidx|]. split; [exact Hi|].
  destruct (delete_row_removes s 3 1 Ht Hidx Hi)
    as (s' & Hdel & Hlen & _ & Hbefore & Hafter & _).
  exists s'. split; [exact Hdel|]. split; [exact Hlen|]. split.
  - apply Hbefore. cbn. lia.
  - apply (Hafter 1%nat). cbn. lia.
Defined.

(** C5. On a table of [n] rows labelled 0 to [n - 1], deleting at an index
    below 0 or from [n] on fails: the caller gets the error [drop] raises for
    a label that is not there, and table, history file and notices are what
    they were before. *)
Theorem delete_row_out_of_range s n i :
  index (history_df s) = RangeIndex n -> i < 0 \/ Z.of_nat n <= i ->
  delete_row i s = (Raise KeyError, s).
Proof.
  intros Hidx Hi. unfold delete_row. rewrite (drop_missing _ n i Hidx Hi).
  reflexivity.
Qed.

Lemma delete_row_out_of_range_witness :
  let df := mkDataFrame [0; 1]
              [("Tenant Name", [Str "Asha"; Str "Ravi"])]%string in
  let s := mkSession df (Some df) [] in
  index (history_df s) = RangeIndex 2 /\
  (2 < 0 \/ Z.of_nat 2 <= 2) /\
  delete_row 2 s = (Raise KeyError, s).
Proof.
  intros df s.
  assert (index (history_df s) = RangeIndex 2) as Hidx by reflexivity.
  assert (2 < 0 \/ Z.of_nat 2 <= 2) as Hi by (right; vm_compute; congruence).
  split; [exact Hidx|]. split; [exact Hi|].
  exact (delete_row_out_of_range s 2 2 Hidx Hi).
Defined.

Lemma select_lookup df cols :
  Forall (fun col => has_column df col = true) cols ->
  exists picked,
    select df cols = Ok (mkDataFrame (index df) picked) /\
    forall col, col ∈ cols ->
      lookup_column col picked = lookup_column col (columns df).
Proof.
  unfold select. induction 1 as [|c cols Hc _ IH].
  - exists []. split; [reflexivity|]. intros col Hin.
    apply elem_of_nil in Hin. contradiction.
  - destruct IH as (picked & Hsel & Hlook).
    destruct (has_column_getitem _ _ Hc) as (cells & Hget & Hcells).
    exists ((c, cells) :: picked). split.
    + change (mapM ?f (c :: cols)) with (apply f (c :: cols)).
      rewrite apply_cons, Hget. cbn [mbind result_bind]. unfold apply.
      destruct (mapM _ cols) as [k|e]; [|discriminate].
      injection Hsel as <-. reflexivity.
    + intros col Hin. cbn [lookup_column].
      destruct (String.eqb_spec c col) as [->|Hne]; [symmetry; exact Hcells|].
      apply elem_of_cons in Hin as [->|Hin]; [contradiction|].
      apply Hlook, Hin.
Qed.

Lemma apply_labels `{Parser} now due status :
  apply (get_payment_status now) due = Ok status ->
  Forall (fun s => exists st, s = label st) status.
Proof.
  intros Happ. apply apply_Forall2 in Happ.
  induction Happ as [|v s due status Hs _ IH]; constructor; [|exact IH].
  destruct (get_payment_status_label now v) as [st Hst].
  exists st. congruence.
Qed.

(** C6, as the claim states it, fails: the overview shows four counts, none
    of them for Unknown, and on a table whose one row has no due date the
    counts shown add up to 0, not to the one row. *)
Lemma overview_leaves_out_unknown :
  let df := mkDataFrame [0]
              [("Tenant Name", [Str "Asha"]);
               ("Next Payment Due Date", [NaN])]%string in
  exists df' shown,
    dashboard (mkdate 2024 6 10) df = Ok (df', Some shown) /\
    len df' = 1%nat /\
    cell df' "Payment Status" 0 = Some (Str (label Unknown)) /\
    ~ (label Unknown ∈ shown.*1) /\
    sum_list (shown.*2) = 0%nat /\
    sum_list (shown.*2) <> len df'.
Proof.
  intros df. eexists _, _. split; [vm_compute; reflexivity|].
  split; [reflexivity|]. split; [reflexivity|]. split.
  - intros Hin. repeat (apply elem_of_cons in Hin as [Hin|Hin]; [discriminate|]).
    apply elem_of_nil in Hin. exact Hin.
  - split; [reflexivity | discriminate].
Qed.

(** C6, amended.  On a table with at least one row that has the due-date
    column, the dashboard recomputes the statuses and counts them: with
    [cells] the recomputed status column, one cell for each row, the count
    of each of the five statuses is the number of cells holding that status,
    0 for a status that does not occur, and the five counts add up to the
    number of rows.  The overview shows four figures, the numbers of cells
    that hold Overdue, Due Soon, Due Today and Upcoming, each under its own
    label and in this order: what it shows adds up to the number of rows
    less the rows whose status is Unknown. *)
Theorem status_counts_total `{Parser} now df :
  table df -> has_column df "Next Payment Due Date" = true ->
  empty df = false ->
  exists df' counts cells,
    dashboard now df = Ok (df', Some (overview counts)) /\
    recompute_statuses now df = Ok df' /\
    status_counts df' = Ok counts /\
    getitem df' "Payment Status" = Ok cells /\
    length cells = len df' /\
    (forall s, get counts (Str (label s)) 0 = records_with s cells) /\
    (forall s, Str (label s) ∉ cells -> get counts (Str (label s)) 0 = 0%nat) /\
    (get counts (Str (label Unknown)) 0 + get counts (Str (label Overdue)) 0
     + get counts (Str (label DueToday)) 0 + get counts (Str (label DueSoon)) 0
     + get counts (Str (label Upcoming)) 0)%nat = len df' /\
    overview counts
    = [(label Overdue, records_with Overdue cells);
       (label DueSoon, records_with DueSoon cells);
       (label DueToday, records_with DueToday cells);
       (label Upcoming, records_with Upcoming cells)] /\
    (overview counts).*1
    = [label Overdue; label DueSoon; label DueToday; label Upcoming] /\
    (sum_list ((overview counts).*2) + get counts (Str (label Unknown)) 0)%nat
    = len df' /\
    sum_list ((overview counts).*2)
    = (len df' - records_with Unknown cells)%nat.
Proof.
  intros Ht Hcol Hne.
  destruct (has_column_getitem _ _ Hcol) as (due & Hget & Hlook).
  destruct (recompute_statuses_Ok now df due Hget) as (status & Happ & Hre).
  set (df' := setitem df "Payment Status" (Str <$> status)) in *.
  assert (lookup_column "Payment Status" (columns df') = Some (Str <$> status))
    as Hst by apply lookup_set_column_eq.
  destruct (select_lookup df'
              (filter (fun col => has_column df' col) tenant_cols))
    as (picked & Hsel & Hpicked).
  { apply Forall_forall. intros col Hin. apply list_elem_of_filter in Hin.
    destruct Hin as [Hin _]. destruct (has_column df' col); [reflexivity|].
    contradiction. }
  assert (lookup_column "Payment Status" picked = Some (Str <$> status)) as Hp.
  { rewrite Hpicked; [exact Hst|]. apply list_elem_of_filter. split.
    - unfold has_column. rewrite Hst. exact I.
    - unfold tenant_cols. repeat (first [left | right]). }
  exists df', (value_counts (Str <$> status)), (Str <$> status).
  assert (length status = len df') as Hlen.
  { apply apply_Forall2, Forall2_length in Happ. rewrite <- Happ.
    apply (table_column_length df _ _ Ht Hlook). }
  pose proof (occurrences_statuses status (apply_labels now due status Happ))
    as Hsum.
  assert (forall s, get (value_counts (Str <$> status)) (Str (label s)) 0
                    = records_with s (Str <$> status)) as Hcount
    by (intros s; apply get_value_counts; reflexivity).
  split.
  { unfold dashboard. rewrite Hne. cbn [negb]. rewrite Hre.
    cbn [mbind result_bind]. rewrite Hsel. cbn [mbind result_bind].
    unfold status_counts, getitem. cbn [columns]. rewrite Hp. reflexivity. }
  split; [exact Hre|]. split.
  { unfold status_counts, getitem. rewrite Hst. reflexivity. }
  split; [unfold getitem; rewrite Hst; reflexivity|].
  split; [rewrite length_fmap; exact Hlen|].
  split; [exact Hcount|]. split.
  { intros s Hnin. rewrite Hcount. apply occurrences_not_elem_of, Hnin. }
  split.
  { cbn [label]. rewrite !get_value_counts by reflexivity.
    rewrite <- Hlen, <- Hsum. reflexivity. }
  split.
  { unfold overview. rewrite <- !Hcount. reflexivity. }
  split; [reflexivity|]. split.
  - unfold overview. cbn [fmap list_fmap snd sum_list sum_list_with id label].
    rewrite !get_value_counts by reflexivity. rewrite <- Hlen, <- Hsum. lia.
  - unfold overview. cbn [fmap list_fmap snd sum_list sum_list_with id label].
    rewrite !get_value_counts by reflexivity. rewrite <- Hlen, <- Hsum.
    change (records_with Unknown (Str <$> status))
      with (occurrences (Str "Unknown") (Str <$> status)).
    lia.
Qed.

Lemma status_counts_total_witness :
  let df := mkDataFrame [0; 1; 2]
              [("Tenant Name", [Str "Asha"; Str "Ravi"; Str "Mina"]);
               ("Next Payment Due Date",
                [Str "2024-05-31"; NaN; Str "2024-06-20"])]%string in
  table df /\
  has_column df "Next Payment Due Date" = true /\
  empty df = false /\
  exists df' counts cells,
    dashboard (mkdate 2024 6 10) df = Ok (df', Some (overview counts)) /\
    getitem df' "Payment Status" = Ok cells /\
    overview counts
    = [(label Overdue, records_with Overdue cells);
       (label DueSoon, records_with DueSoon cells);
       (label DueToday, records_with DueToday cells);
       (label Upcoming, records_with Upcoming cells)] /\
    sum_list ((overview counts).*2)
    = (len df' - records_with Unknown cells)%nat.
Proof.
  intros df.
  assert (table df) as Ht.
  { split.
    - repeat constructor.
    - apply (bool_decide_unpack _). reflexivity. }
  assert (has_column df "Next Payment Due Date" = true) as Hc by reflexivity.
  assert (empty df = false) as Hne by reflexivity.
  split; [exact Ht|]. split; [exact Hc|]. split; [exact Hne|].
  destruct (status_counts_total (mkdate 2024 6 10) df Ht Hc Hne)
    as (df' & counts & cells & Hdash & _ & _ & Hcells & _ & _ & _ & _
        & Hview & _ & _ & Hshown).
  exists df', counts, cells. split; [exact Hdash|]. split; [exact Hcells|].
  split; [exact Hview | exact Hshown].
Defined.

(** C8. Loading a stored table gives a table with all seventeen required
    columns, BHK to Payment Status; a required column the stored table lacks
    is added with the empty text in every row; every column the stored table
    has keeps its cells, and the rows keep their labels.  Without a stored
    table the result has the seventeen columns and no row. *)
Theorem load_history_columns stored :
  let history_df := load_history (Some stored) in
  length required_cols = 17%nat /\
  (forall col, col ∈ required_cols -> has_column history_df col = true) /\
  (forall col, col ∈ required_cols -> has_column stored col = false ->
     getitem history_df col = Ok (replicate (len stored) (Str ""))) /\
  (forall col cells, getitem stored col = Ok cells ->
     getitem history_df col = Ok cells) /\
  index history_df = index stored /\
  (table stored -> table history_df) /\
  (columns (load_history None)).*1 = required_cols /\
  len (load_history None) = 0%nat.
Proof.
  cbv zeta. unfold load_history.
  assert (forall col cells,
            lookup_column col (columns stored) = Some cells ->
            lookup_column col (columns (foldl add_missing stored required_cols))
            = Some cells) as Hkeep
    by (intros col cells; apply add_missing_keeps).
  assert (forall col, col ∈ required_cols ->
            lookup_column col (columns stored) = None ->
            lookup_column col (columns (foldl add_missing stored required_cols))
            = Some (replicate (len stored) (Str ""))) as Hadd
    by (intros col; apply add_missing_adds).
  split; [reflexivity|]. split; [|split; [|split; [|split; [|split; [|split]]]]].
  - intros col Hin. unfold has_column.
    destruct (lookup_column col (columns stored)) as [cells|] eqn:E.
    + rewrite (Hkeep _ _ E). reflexivity.
    + rewrite (Hadd _ Hin E). reflexivity.
  - intros col Hin. unfold has_column, getitem.
    destruct (lookup_column col (columns stored)) eqn:E; [discriminate|].
    intros _. rewrite (Hadd _ Hin E). reflexivity.
  - intros col cells. unfold getitem.
    destruct (lookup_column col (columns stored)) as [c|] eqn:E; [|discriminate].
    intros [= ->]. rewrite (Hkeep _ _ E). reflexivity.
  - apply add_missing_index.
  - apply add_missing_table.
  - reflexivity.
  - reflexivity.
Qed.

Lemma load_history_columns_witness :
  let stored := mkDataFrame [0; 1]
                  [("BHK", [Num 2; Num 3]);
                   ("City", [Str "Pune"; Str "Delhi"])]%string in
  "Payment Status"%string ∈ required_cols /\
  has_column stored "Payment Status" = false /\
  getitem stored "City" = Ok [Str "Pune"; Str "Delhi"] /\
  getitem (load_history (Some stored)) "Payment Status" = Ok [Str ""; Str ""] /\
  getitem (load_history (Some stored)) "City" = Ok [Str "Pune"; Str "Delhi"].
Proof.
  intros stored.
  assert ("Payment Status"%string ∈ required_cols) as Hin
    by (apply (bool_decide_unpack _); reflexivity).
  assert (has_column stored "Payment Status" = false) as Hno by reflexivity.
  assert (getitem stored "City" = Ok [Str "Pune"; Str "Delhi"]) as Hcity
    by reflexivity.
  destruct (load_history_columns stored) as (_ & _ & Hadd & Hkeep & _).
  split; [exact Hin|]. split; [exact Hno|]. split; [exact Hcity|].
  split; [exact (Hadd _ Hin Hno) | exact (Hkeep _ _ Hcity)].
Defined.

(** ** The table along [main]

    What the theorems above ask of the table holds from the loading on:
    [read_csv] gives a table with the labels 0, 1, 2, ..., and loading,
    recomputing the statuses and deleting a row keep it one. *)

Lemma load_history_table stored n :
  table stored -> index stored = RangeIndex n ->
  table (load_history (Some stored)) /\
  index (load_history (Some stored)) = RangeIndex n /\
  has_column (load_history (Some stored)) "Next Payment Due Date" = true.
Proof.
  intros Ht Hidx. unfold load_history.
  split; [apply add_missing_table, Ht|].
  split; [rewrite add_missing_index; exact Hidx|].
  unfold has_column.
  destruct (lookup_column "Next Payment Due Date" (columns stored))
    as [cells|] eqn:E.
  - rewrite (add_missing_keeps _ _ _ _ E). reflexivity.
  - assert ("Next Payment Due Date"%string ∈ required_cols) as Hin
      by (apply (bool_decide_unpack _); reflexivity).
    rewrite (add_missing_adds stored required_cols _ Hin E). reflexivity.
Qed.

Lemma recompute_statuses_table `{Parser} now df df' :
  table df -> recompute_statuses now df = Ok df' ->
  table df' /\ index df' = index df.
Proof.
  intros Ht. unfold recompute_statuses.
  destruct (getitem df "Next Payment Due Date") as [due|e] eqn:Hdue;
    [|discriminate].
  cbn [mbind result_bind].
  destruct (apply (get_payment_status now) due) as [status|e] eqn:Hs;
    [|discriminate].
  cbn [mbind result_bind]. intros [= <-]. split; [|reflexivity].
  apply setitem_table; [exact Ht|]. rewrite length_fmap.
  apply apply_Forall2, Forall2_length in Hs. rewrite <- Hs.
  unfold getitem in Hdue.
  destruct (lookup_column "Next Payment Due Date" (columns df)) as [c|] eqn:E;
    [|discriminate].
  injection Hdue as ->. exact (table_column_length _ _ _ Ht E).
Qed.

Lemma delete_row_table s n i s' :
  table (history_df s) -> index (history_df s) = RangeIndex n ->
  delete_row i s = (Ok (), s') -> table (history_df s').
Proof.
  intros Ht Hidx. unfold delete_row.
  destruct (drop (history_df s) i) as [dropped|e] eqn:Hdrop; [|discriminate].
  intros [= <-]. cbn [history_df].
  assert (0 <= i < Z.of_nat n) as Hi.
  { destruct (Z.lt_ge_cases i 0) as [Hneg|Hpos];
      [rewrite (drop_missing _ n i Hidx) in Hdrop by (left; exact Hneg);
       discriminate|].
    destruct (Z.lt_ge_cases i (Z.of_nat n)) as [Hlt|Hge]; [lia|].
    rewrite (drop_missing _ n i Hidx) in Hdrop by (right; exact Hge).
    discriminate. }
  rewrite (drop_RangeIndex _ n i Ht Hidx Hi) in Hdrop. injection Hdrop as <-.
  destruct Ht as [Hlen Hnd].
  assert (len (history_df s) = n) as Hn
    by (unfold len; rewrite Hidx; apply len_RangeIndex).
  split.
  - rewrite len_reset_index. unfold reset_index, len. cbn [index columns].
    apply Forall_fmap.
    eapply Forall_impl; [exact Hlen|]. intros [c cells] Hc. cbn [snd] in *.
    cbn [compose fst snd]. rewrite !length_delete.
    + rewrite Hc. reflexivity.
    + apply lookup_lt_is_Some_2. unfold len in Hn. lia.
    + apply lookup_lt_is_Some_2. lia.
  - unfold reset_index. cbn [columns]. rewrite <- list_fmap_compose.
    exact Hnd.
Qed.

(** ** The examples of the specification, run on the model *)

Example classify_examples :
  let today := mkdate 2024 6 10 in
  get_payment_status today (Str "2024-06-09") = Ok "Overdue"%string /\
  get_payment_status today (Str "2024-06-10") = Ok "Due Today"%string /\
  get_payment_status today (Str "2024-06-15") = Ok "Due Soon"%string /\
  get_payment_status today (Str "2024-06-17") = Ok "Due Soon"%string /\
  get_payment_status today (Str "2024-06-18") = Ok "Upcoming"%string /\
  get_payment_status today (Str "2024-06-20") = Ok "Upcoming"%string /\
  get_payment_status today NaN = Ok "Unknown"%string /\
  get_payment_status today (Str "2024-02-30") = Ok "Unknown"%string.
Proof. vm_compute. repeat split. Qed.

Example due_date_examples :
  Next_Payment_Due_Date (Some (mkdate 2024 5 1))
    (frequency_days "Monthly (30 days)" 30) = Ok "2024-05-31"%string /\
  Next_Payment_Due_Date (Some (mkdate 2024 5 1))
    (frequency_days "Quarterly (90 days)" 30) = Ok "2024-07-30"%string /\
  Next_Payment_Due_Date (Some (mkdate 2024 2 28))
    (frequency_days "Custom" 2) = Ok "2024-03-01"%string /\
  calculate_due_date_default (Str "2023-12-15") = Ok "2024-01-14"%string /\
  get_payment_status (mkdate 2024 6 10) (Str "2024-05-31") = Ok "Overdue"%string.
Proof. vm_compute. repeat split. Qed.

Example delete_examples :
  let df := mkDataFrame [0] [("Tenant Name", [Str "Asha"])]%string in
  let s := mkSession df (Some df) [] in
  exists s',
    delete_row 0 s = (Ok (), s') /\
    len (history_df s') = 0%nat /\
    empty (history_df s') = true /\
    delete_row 0 s' = (Raise KeyError, s').
Proof. eexists. vm_compute. repeat split. Qed.

(* ================================================================== *)
(** * Further properties of the code *)
(* ================================================================== *)

(** ** Adding a row *)

Lemma lookup_column_app col cols1 cols2 :
  lookup_column col (cols1 ++ cols2) =
  match lookup_column col cols1 with
  | Some cells => Some cells
  | None => lookup_column col cols2
  end.
Proof.
  induction cols1 as [|[c cells] rest IH]; [reflexivity|].
  cbn [app lookup_column]. destruct (String.eqb c col); [reflexivity | exact IH].
Qed.

Lemma lookup_column_fmap (g : string -> list value -> list value) col cols :
  lookup_column col ((fun c => (c.1, g c.1 c.2)) <$> cols)
  = g col <$> lookup_column col cols.
Proof.
  induction cols as [|[c cells] rest IH]; [reflexivity|].
  rewrite fmap_cons. cbn [lookup_column fst snd].
  destruct (String.eqb_spec c col) as [->|Hne]; [reflexivity | exact IH].
Qed.

Lemma lookup_column_entries (h : value -> list value)
  (there : string -> bool) col entry :
  lookup_column col
    ((fun e => (e.1, h e.2)) <$> filter (fun e => there e.1 = false) entry)
  = if there col then None else h <$> lookup_entry col entry.
Proof.
  induction entry as [|[c v] rest IH].
  - destruct (there col); reflexivity.
  - cbn [lookup_entry]. destruct (there c) eqn:Hk.
    + rewrite filter_cons_False by (cbn [fst]; congruence).
      destruct (String.eqb_spec c col) as [->|Hne]; [|exact IH].
      rewrite IH, Hk. reflexivity.
    + rewrite filter_cons_True by exact Hk. rewrite fmap_cons.
      cbn [lookup_column fst snd].
      destruct (String.eqb_spec c col) as [->|Hne]; [|exact IH].
      rewrite Hk. reflexivity.
Qed.

Lemma names_fmap (g : string -> list value -> list value)
  (cols : list (string * list value)) :
  ((fun c => (c.1, g c.1 c.2)) <$> cols).*1 = cols.*1.
Proof.
  rewrite <- list_fmap_compose. apply list_fmap_ext. intros i [c cells] _.
  reflexivity.
Qed.

Lemma names_filter_NoDup (P : string * value -> Prop)
  `{forall e, Decision (P e)} (entry : list (string * value)) :
  NoDup entry.*1 -> NoDup (filter P entry).*1.
Proof.
  induction entry as [|e rest IH]; [intros _; constructor|].
  rewrite fmap_cons, NoDup_cons. intros [Hnin Hnd].
  destruct (decide (P e)) as [Hp|Hp].
  - rewrite filter_cons_True by exact Hp. rewrite fmap_cons, NoDup_cons.
    split; [|exact (IH Hnd)]. intros Hin. apply Hnin.
    apply list_elem_of_fmap in Hin as (x & -> & Hx).
    apply list_elem_of_filter in Hx as [_ Hx].
    apply list_elem_of_fmap_2, Hx.
  - rewrite filter_cons_False by exact Hp. exact (IH Hnd).
Qed.

Lemma lookup_column_Some_name col cells cols :
  lookup_column col cols = Some cells -> col ∈ cols.*1.
Proof.
  intros Hl. apply lookup_column_elem_of in Hl.
  apply (list_elem_of_fmap_2 fst) in Hl. exact Hl.
Qed.

Lemma lookup_column_name col (cols : list (string * list value)) :
  col ∈ cols.*1 -> exists cells, lookup_column col cols = Some cells.
Proof.
  induction cols as [|[c cells] rest IH].
  - intros Hin. apply elem_of_nil in Hin. contradiction.
  - rewrite fmap_cons. cbn [fst lookup_column]. intros Hin.
    destruct (String.eqb_spec c col) as [->|Hne]; [exists cells; reflexivity|].
    apply elem_of_cons in Hin as [->|Hin]; [contradiction|]. exact (IH Hin).
Qed.

Lemma len_concat df entry : len (concat df entry) = S (len df).
Proof. unfold len, concat. cbn [index]. apply len_RangeIndex. Qed.

Lemma lookup_column_concat df entry col :
  lookup_column col (columns (concat df entry)) =
  match lookup_column col (columns df) with
  | Some cells => Some (cells ++ [default NaN (lookup_entry col entry)])
  | None =>
      (fun v => replicate (len df) NaN ++ [v]) <$> lookup_entry col entry
  end.
Proof.
  unfold concat. cbn [columns]. rewrite lookup_column_app.
  rewrite (lookup_column_fmap
             (fun c cells => cells ++ [default NaN (lookup_entry c entry)])).
  destruct (lookup_column col (columns df)) as [cells|] eqn:E; [reflexivity|].
  cbn [fmap option_fmap option_map].
  rewrite (lookup_column_entries (fun v => replicate (len df) NaN ++ [v])
             (has_column df)).
  unfold has_column. rewrite E. reflexivity.
Qed.

Lemma concat_table df entry :
  table df -> NoDup entry.*1 -> table (concat df entry).
Proof.
  intros [Hlen Hnd] Hentry. split.
  - rewrite len_concat. unfold concat. cbn [columns]. apply Forall_app. split.
    + apply Forall_fmap. eapply Forall_impl; [exact Hlen|].
      intros [c cells] Hc. cbn [compose fst snd] in *.
      rewrite length_app, Hc. cbn [length]. lia.
    + apply Forall_fmap, Forall_forall. intros [c v] _. cbn [compose fst snd].
      rewrite length_app, length_replicate. cbn [length]. lia.
  - unfold concat. cbn [columns]. rewrite fmap_app.
    rewrite (names_fmap
               (fun c cells => cells ++ [default NaN (lookup_entry c entry)])).
    rewrite <- (list_fmap_compose
                  (fun e : string * value =>
                     (e.1, replicate (len df) NaN ++ [e.2])) fst).
    change (fst ∘ _) with (@fst string value).
    apply NoDup_app. split; [exact Hnd|]. split.
    + intros x Hx Hin. apply list_elem_of_fmap in Hin as ([c v] & -> & Hf).
      apply list_elem_of_filter in Hf as [Hno _]. cbn [fst] in *.
      unfold has_column in Hno.
      destruct (lookup_column c (columns df)) eqn:E; [discriminate|].
      exact (lookup_column_None _ _ E Hx).
    + apply names_filter_NoDup, Hentry.
Qed.

Lemma cell_concat_old df entry col i :
  table df -> (i < len df)%nat -> has_column df col = true ->
  cell (concat df entry) col i = cell df col i.
Proof.
  intros Ht Hi Hcol. unfold cell. rewrite lookup_column_concat.
  destruct (has_column_getitem _ _ Hcol) as (cells & _ & Hl). rewrite Hl.
  cbn [mbind option_bind]. apply lookup_app_l.
  rewrite (table_column_length _ _ _ Ht Hl). exact Hi.
Qed.

Lemma cell_concat_new df entry col v :
  table df -> lookup_entry col entry = Some v ->
  cell (concat df entry) col (len df) = Some v.
Proof.
  intros Ht Hv. unfold cell. rewrite lookup_column_concat, Hv.
  destruct (lookup_column col (columns df)) as [cells|] eqn:Hl;
    cbn [mbind option_bind fmap option_fmap option_map default].
  - rewrite <- (table_column_length _ _ _ Ht Hl).
    apply list_lookup_middle. reflexivity.
  - apply list_lookup_middle. rewrite length_replicate. reflexivity.
Qed.

(** X1. Appending a one-row entry to a table gives a table with one row
    more, labelled 0, 1, 2, ...; every cell of the rows that were there is
    as it was; the new last row holds the entry's cells, with [NaN] in a
    column of the table the entry does not have; and a column only the
    entry has holds [NaN] in every earlier row. *)
Theorem concat_appends df entry :
  table df -> NoDup entry.*1 ->
  table (concat df entry) /\
  index (concat df entry) = RangeIndex (S (len df)) /\
  (forall col i, (i < len df)%nat -> has_column df col = true ->
     cell (concat df entry) col i = cell df col i) /\
  (forall col v, lookup_entry col entry = Some v ->
     cell (concat df entry) col (len df) = Some v) /\
  (forall col, has_column df col = true -> lookup_entry col entry = None ->
     cell (concat df entry) col (len df) = Some NaN) /\
  (forall col v i, has_column df col = false ->
     lookup_entry col entry = Some v -> (i < len df)%nat ->
     cell (concat df entry) col i = Some NaN).
Proof.
  intros Ht Hentry. split; [apply concat_table; assumption|].
  split; [reflexivity|]. split; [|split; [|split]].
  - intros col i Hi Hcol. apply cell_concat_old; assumption.
  - intros col v Hv. apply cell_concat_new; assumption.
  - intros col Hcol Hno. unfold cell. rewrite lookup_column_concat, Hno.
    destruct (has_column_getitem _ _ Hcol) as (cells & _ & Hl). rewrite Hl.
    cbn [mbind option_bind default].
    rewrite <- (table_column_length _ _ _ Ht Hl).
    apply list_lookup_middle. reflexivity.
  - intros col v i Hcol Hv Hi. unfold cell. rewrite lookup_column_concat, Hv.
    unfold has_column in Hcol.
    destruct (lookup_column col (columns df)); [discriminate|].
    cbn [mbind option_bind fmap option_fmap option_map].
    rewrite lookup_app_l by (rewrite length_replicate; exact Hi).
    apply lookup_replicate_2, Hi.
Qed.

Lemma concat_appends_witness :
  let df := mkDataFrame [0; 1]
              [("City", [Str "Pune"; Str "Delhi"]);
               ("Agent", [Str "A"; Str "B"])]%string in
  let entry := [("City", Str "Agra"); ("Floor", Str "1 out of 2")]%string in
  table df /\ NoDup entry.*1 /\
  cell (concat df entry) "City" 1 = Some (Str "Delhi") /\
  cell (concat df entry) "City" 2 = Some (Str "Agra") /\
  cell (concat df entry) "Agent" 2 = Some NaN /\
  cell (concat df entry) "Floor" 0 = Some NaN.
Proof.
  intros df entry.
  assert (table df) as Ht.
  { split.
    - repeat constructor.
    - apply (bool_decide_unpack _). reflexivity. }
  assert (NoDup entry.*1) as Hentry
    by (apply (bool_decide_unpack _); reflexivity).
  destruct (concat_appends df entry Ht Hentry)
    as (_ & _ & Hold & Hnew & Hmissing & Hearlier).
  split; [exact Ht|]. split; [exact Hentry|]. split; [|split; [|split]].
  - apply (Hold "City"%string 1%nat); [cbn; lia | reflexivity].
  - apply (Hnew "City"%string). reflexivity.
  - apply (Hmissing "Agent"%string); reflexivity.
  - apply (Hearlier "Floor"%string (Str "1 out of 2") 0%nat);
      [reflexivity | reflexivity | cbn; lia].
Defined.

(** ** The predict button *)

Lemma history_entry_names ui predicted_rent due_date payment_status :
  (history_entry ui predicted_rent due_date payment_status).*1 = required_cols.
Proof. reflexivity. Qed.

Lemma required_cols_NoDup : NoDup required_cols.
Proof. apply (bool_decide_unpack _). reflexivity. Qed.

Lemma filter_none {A} (P : A -> Prop) `{forall x, Decision (P x)} (l : list A) :
  (forall x, x ∈ l -> ~ P x) -> filter P l = [].
Proof.
  induction l as [|x l IH]; [reflexivity|]. intros Hno.
  rewrite filter_cons_False by (apply Hno; left).
  apply IH. intros y Hy. apply Hno. right. exact Hy.
Qed.

Lemma concat_names_required df entry :
  (forall col, col ∈ entry.*1 -> has_column df col = true) ->
  (columns (concat df entry)).*1 = (columns df).*1.
Proof.
  intros Hall. unfold concat. cbn [columns]. rewrite filter_none.
  - rewrite fmap_nil, app_nil_r.
    apply (names_fmap
             (fun c cells => cells ++ [default NaN (lookup_entry c entry)])).
  - intros e He Hno. rewrite (Hall e.1) in Hno; [discriminate|].
    apply list_elem_of_fmap_2, He.
Qed.

(** X2. Pressing the predict button on a table always succeeds: the table
    gets one row more and is written to the file as it now is; the new row
    holds the due date handed in, the status the classifier gives for that
    due date at that moment and the rent the predictor gave; every cell of
    the earlier rows, their stored statuses included, is written back as it
    was; and on a table that has the seventeen required columns no column is
    added. *)
Theorem predict_rent_appends `{Parser} now model ui due_date s :
  table (history_df s) ->
  exists status s',
    get_payment_status now (Str due_date) = Ok status /\
    predict_rent now model ui due_date s = (Ok (), s') /\
    table (history_df s') /\
    index (history_df s') = RangeIndex (S (len (history_df s))) /\
    HISTORY_FILE s' = Some (history_df s') /\
    notices s' = notices s /\
    cell (history_df s') "Next Payment Due Date" (len (history_df s))
    = Some (Str due_date) /\
    cell (history_df s') "Payment Status" (len (history_df s))
    = Some (Str status) /\
    cell (history_df s') "Predicted Rent" (len (history_df s))
    = Some (model (input_data ui)) /\
    (forall col i, (i < len (history_df s))%nat ->
       has_column (history_df s) col = true ->
       cell (history_df s') col i = cell (history_df s) col i) /\
    ((forall col, col ∈ required_cols -> has_column (history_df s) col = true) ->
     (columns (history_df s')).*1 = (columns (history_df s)).*1).
Proof.
  intros Ht. destruct (get_payment_status_returns now (Str due_date))
    as [status Hs].
  set (entry := history_entry ui (model (input_data ui)) due_date status).
  exists status, (mkSession (concat (history_df s) entry)
                    (Some (concat (history_df s) entry)) (notices s)).
  assert (NoDup entry.*1) as Hentry by exact required_cols_NoDup.
  destruct (concat_appends (history_df s) entry Ht Hentry)
    as (Htable & Hindex & Hold & Hnew & _).
  split; [exact Hs|]. split; [unfold predict_rent; rewrite Hs; reflexivity|].
  cbn [history_df HISTORY_FILE notices].
  split; [exact Htable|]. split; [exact Hindex|]. split; [reflexivity|].
  split; [reflexivity|].
  split; [apply Hnew; reflexivity|]. split; [apply Hnew; reflexivity|].
  split; [apply Hnew; reflexivity|]. split; [exact Hold|].
  intros Hall. apply concat_names_required. exact Hall.
Qed.

Lemma predict_rent_appends_witness :
  let df := mkDataFrame [0]
              [("Tenant Name", [Str "Asha"]);
               ("Next Payment Due Date", [Str "2024-01-31"]);
               ("Payment Status", [Str "Upcoming"])]%string in
  let s := mkSession df (Some df) [] in
  let ui := mkSidebar 2 950 2 "Furnished" "Family" "Pune" "Contact Owner"
              "Baner" (mkdate 2024 6 1) "Super Area" "5 out of 10"
              "Ravi" "12345" (Some (mkdate 2024 5 1)) "Monthly (30 days)" 30 in
  table (history_df s) /\
  exists s',
    predict_rent (mkdate 2024 6 10) (fun _ => Num 15000) ui "2024-05-31" s
    = (Ok (), s') /\
    cell (history_df s') "Payment Status" 1 = Some (Str "Overdue") /\
    cell (history_df s') "Payment Status" 0 = Some (Str "Upcoming").
Proof.
  intros df s ui.
  assert (table (history_df s)) as Ht.
  { split.
    - repeat constructor.
    - apply (bool_decide_unpack _). reflexivity. }
  split; [exact Ht|].
  destruct (predict_rent_appends (mkdate 2024 6 10) (fun _ => Num 15000) ui
              "2024-05-31" s Ht)
    as (status & s' & Hs & Hp & _ & _ & _ & _ & _ & Hst & _ & Hold & _).
  exists s'. split; [exact Hp|]. split.
  - injection Hs as <-. exact Hst.
  - apply (Hold "Payment Status"%string 0%nat); [cbn; lia | reflexivity].
Defined.

(** ** Due dates: how they chain, and where [main] stops *)

Lemma valid_ordinal d :
  well_formed d = true -> 0 < toordinal d <= MAXORDINAL -> valid d = true.
Proof.
  intros Hw Ho. apply valid_spec. split; [|exact Hw].
  destruct d as [y m dd]. apply well_formed_spec in Hw. cbn [year month day] in *.
  destruct Hw as (Hm & Hd).
  pose proof (day_of_year_bounds y m dd Hm Hd) as Hk.
  pose proof (days_before_year_succ y) as Hs.
  unfold toordinal in Ho. cbn [year month day] in Ho.
  assert (days_before_year y + 1 <= days_before_year y
            + days_before_month y m + dd <= days_before_year (y + 1)) as Hb
    by (destruct (is_leap y); lia).
  split.
  - destruct (Z.lt_ge_cases y 1) as [Hlt|]; [|assumption].
    pose proof (days_before_year_lt y 1 Hlt) as Hle.
    change (days_before_year 1) with 0 in Hle. lia.
  - destruct (Z.lt_ge_cases 9999 y) as [Hgt|]; [|lia].
    assert (days_before_year 10000 <= days_before_year y) as Hle.
    { destruct (Z.eq_dec y 10000) as [->|Hne]; [lia|].
      pose proof (days_before_year_lt 10000 y ltac:(lia)) as Hle.
      pose proof (days_before_year_succ 10000) as Hs'.
      destruct (is_leap 10000); lia. }
    change (days_before_year 10000) with 3652059 in Hle.
    unfold MAXORDINAL in Ho. lia.
Qed.

Lemma advance_advance d a b :
  well_formed d = true -> advance (advance d a) b = advance d (a + b).
Proof.
  intros Hd. destruct (advance_spec d a Hd) as [Ea Wa].
  destruct (advance_spec (advance d a) b Wa) as [Eb Wb].
  destruct (advance_spec d (a + b) Hd) as [Eab Wab].
  apply toordinal_injective; [assumption..|lia].
Qed.

Lemma advance_zero d : advance d 0 = d.
Proof. reflexivity. Qed.

Lemma representable_valid d :
  well_formed d = true -> representable d -> valid d = true.
Proof.
  intros Hw Hr. apply valid_ordinal; [exact Hw|].
  apply representable_ordinal, Hr.
Qed.

(** X3. The due date [main] derives is not guarded: for a previous payment
    date from the year 1000 on and the frequency the sidebar gives (30, 90,
    or the custom days, always 1 to 365 days), it is the date that many days
    later, written YYYY-MM-DD and strictly after the previous payment date,
    as long as that date is no later than 9999-12-31; past that the
    computation raises [OverflowError] and nothing else of the script
    runs. *)
Theorem due_date_of_sidebar ui d :
  In (Payment_Frequency ui) Payment_Frequency_options ->
  1 <= custom_days ui <= 365 ->
  Previous_Payment_Date ui = Some d -> valid d = true -> 1000 <= year d ->
  let f := frequency_days (Payment_Frequency ui) (custom_days ui) in
  1 <= f <= 365 /\
  (toordinal d + f <= MAXORDINAL ->
   due_date_of ui = Ok (strftime (advance d f)) /\
   advance d f = Z.iter f next_day d /\
   date_lt d (advance d f) /\ valid (advance d f) = true) /\
  (MAXORDINAL < toordinal d + f -> due_date_of ui = Raise OverflowError).
Proof.
  intros Hopt Hcustom Hprev Hv _ f.
  pose proof (frequency_days_range _ _ Hopt Hcustom) as Hf. fold f in Hf.
  apply valid_spec in Hv as [Hy Hw].
  destruct (advance_spec d f Hw) as [E W].
  assert (0 < toordinal d) as Hpos.
  { destruct d as [y m dd]. apply well_formed_spec in Hw.
    cbn [year month day] in *. destruct Hw as (Hm & Hd).
    pose proof (day_of_year_bounds y m dd Hm Hd).
    unfold toordinal. cbn [year month day].
    destruct (Z.eq_dec y 1) as [->|Hne].
    - change (days_before_year 1) with 0. lia.
    - pose proof (days_before_year_lt 1 y ltac:(lia)) as Hle.
      change (days_before_year (1 + 1)) with 365 in Hle. lia. }
  split; [exact Hf|]. unfold due_date_of. rewrite Hprev. fold f. split.
  - intros Hmax. split; [|split; [|split]].
    + apply Next_Payment_Due_Date_shift; [exact Hw | lia | lia].
    + unfold advance. destruct (Z.leb_spec 0 f); [reflexivity | lia].
    + apply toordinal_lt; [assumption..|lia].
    + apply valid_ordinal; [exact W | lia].
  - intros Hmax. unfold Next_Payment_Due_Date.
    rewrite timedelta_Ok by lia. cbn [mbind result_bind]. unfold date_add.
    cbv zeta. destruct (Z.leb_spec (toordinal d + f) MAXORDINAL); [lia|].
    rewrite andb_false_r. reflexivity.
Qed.

Lemma due_date_of_sidebar_witness :
  let ui := mkSidebar 2 950 2 "Furnished" "Family" "Pune" "Contact Owner"
              "Baner" (mkdate 2024 6 1) "Super Area" "5 out of 10"
              "Ravi" "12345" (Some (mkdate 9999 12 1)) "Custom" 31 in
  In (Payment_Frequency ui) Payment_Frequency_options /\
  1 <= custom_days ui <= 365 /\
  Previous_Payment_Date ui = Some (mkdate 9999 12 1) /\
  valid (mkdate 9999 12 1) = true /\
  1000 <= year (mkdate 9999 12 1) /\
  due_date_of ui = Raise OverflowError.
Proof.
  intros ui.
  assert (In (Payment_Frequency ui) Payment_Frequency_options) as Hopt
    by (right; right; left; reflexivity).
  assert (1 <= custom_days ui <= 365) as Hc by (vm_compute; split; congruence).
  assert (Previous_Payment_Date ui = Some (mkdate 9999 12 1)) as Hp
    by reflexivity.
  assert (valid (mkdate 9999 12 1) = true) as Hv by reflexivity.
  assert (1000 <= year (mkdate 9999 12 1)) as Hy by (vm_compute; congruence).
  destruct (due_date_of_sidebar ui (mkdate 9999 12 1) Hopt Hc Hp Hv Hy)
    as (_ & _ & Hraise).
  split; [exact Hopt|]. split; [exact Hc|]. split; [exact Hp|].
  split; [exact Hv|]. split; [exact Hy|]. apply Hraise. vm_compute.
  reflexivity.
Defined.

(** X4. What the application writes it reads back: a due date written by
    [strftime] is parsed as the same date, so the status stored with a new
    entry is the classification of the previous payment date moved by the
    frequency.  For a payment made today the new entry is Due Soon when the
    frequency is at most seven days and Upcoming otherwise, never Overdue. *)
Theorem new_entry_status now ui d :
  clock now ->
  In (Payment_Frequency ui) Payment_Frequency_options ->
  1 <= custom_days ui <= 365 ->
  Previous_Payment_Date ui = Some d -> valid d = true ->
  let f := frequency_days (Payment_Frequency ui) (custom_days ui) in
  representable (advance d f) ->
  exists due_date,
    due_date_of ui = Ok due_date /\
    reads_as (Str due_date) (advance d f) /\
    get_payment_status now (Str due_date) =
      Ok (if days_between now d + f <? 0 then label Overdue
          else if days_between now d + f =? 0 then label DueToday
          else if days_between now d + f <=? 7 then label DueSoon
          else label Upcoming) /\
    (d = now ->
     get_payment_status now (Str due_date)
     = Ok (if f <=? 7 then label DueSoon else label Upcoming)).
Proof.
  intros Hc Hopt Hcustom Hprev Hv f Hrep.
  pose proof (frequency_days_range _ _ Hopt Hcustom) as Hf. fold f in Hf.
  pose proof Hv as Hv'. apply valid_spec in Hv' as [_ Hw].
  destruct (advance_spec d f Hw) as [E W].
  pose proof (representable_valid _ W Hrep) as Hvalid.
  pose proof (representable_ordinal _ Hrep) as Ho. rewrite E in Ho.
  exists (strftime (advance d f)).
  assert (reads_as (Str (strftime (advance d f))) (advance d f)) as Hr
    by (apply iso_reads_as; assumption).
  assert (days_between now (advance d f) = days_between now d + f) as Hdays
    by (unfold days_between; lia).
  split.
  { unfold due_date_of. rewrite Hprev. fold f.
    apply Next_Payment_Due_Date_shift; [exact Hw | lia | lia]. }
  split; [exact Hr|].
  rewrite (get_payment_status_reads_as now _ _ Hc Hr), Hdays.
  split; [reflexivity|]. intros ->. unfold days_between.
  replace (toordinal now - toordinal now + f) with f by lia.
  destruct (Z.ltb_spec f 0); [lia|]. destruct (Z.eqb_spec f 0); [lia|].
  reflexivity.
Qed.

Lemma new_entry_status_witness :
  let ui := mkSidebar 2 950 2 "Furnished" "Family" "Pune" "Contact Owner"
              "Baner" (mkdate 2024 6 1) "Super Area" "5 out of 10"
              "Ravi" "12345" (Some (mkdate 2024 5 1)) "Monthly (30 days)" 30 in
  let f := frequency_days (Payment_Frequency ui) (custom_days ui) in
  clock (mkdate 2024 6 10) /\
  In (Payment_Frequency ui) Payment_Frequency_options /\
  1 <= custom_days ui <= 365 /\
  Previous_Payment_Date ui = Some (mkdate 2024 5 1) /\
  valid (mkdate 2024 5 1) = true /\
  representable (advance (mkdate 2024 5 1) f) /\
  exists due_date,
    due_date_of ui = Ok due_date /\
    get_payment_status (mkdate 2024 6 10) (Str due_date) = Ok (label Overdue).
Proof.
  intros ui f.
  assert (clock (mkdate 2024 6 10)) as Hc
    by (repeat split; vm_compute; congruence).
  assert (In (Payment_Frequency ui) Payment_Frequency_options) as Hopt
    by (left; reflexivity).
  assert (1 <= custom_days ui <= 365) as Hcustom
    by (vm_compute; split; congruence).
  assert (Previous_Payment_Date ui = Some (mkdate 2024 5 1)) as Hp
    by reflexivity.
  assert (valid (mkdate 2024 5 1) = true) as Hv by reflexivity.
  assert (representable (advance (mkdate 2024 5 1) f)) as Hrep by reflexivity.
  destruct (new_entry_status (mkdate 2024 6 10) ui (mkdate 2024 5 1)
              Hc Hopt Hcustom Hp Hv Hrep) as (due_date & Hdue & _ & Hst & _).
  split; [exact Hc|]. split; [exact Hopt|]. split; [exact Hcustom|].
  split; [exact Hp|]. split; [exact Hv|]. split; [exact Hrep|].
  exists due_date. split; [exact Hdue | exact Hst].
Defined.

(** X5. Due dates chain: with the ISO parser, the calculator applied to its
    own result with [b] days gives what it gives on the first date with
    [a + b] days, as long as the dates on the way are ones a timestamp
    holds; moving [a] days on and [a] days back gives the first date
    again. *)
Theorem calculate_due_date_chain d a b :
  valid d = true -> representable d ->
  Z.abs a <= MAX_TIMEDELTA_DAYS -> Z.abs b <= MAX_TIMEDELTA_DAYS ->
  Z.abs (a + b) <= MAX_TIMEDELTA_DAYS ->
  representable (advance d a) -> representable (advance d (a + b)) ->
  exists first,
    calculate_due_date (Str (strftime d)) a = Ok first /\
    calculate_due_date (Str first) b
    = calculate_due_date (Str (strftime d)) (a + b) /\
    calculate_due_date (Str first) b = Ok (strftime (advance d (a + b))) /\
    (b = - a -> calculate_due_date (Str first) b = Ok (strftime d)).
Proof.
  intros Hv Hr Ha Hb Hab Hra Hrab.
  pose proof Hv as Hv'. apply valid_spec in Hv' as [_ Hw].
  destruct (advance_spec d a Hw) as [_ Wa].
  pose proof (iso_reads_as d Hv Hr) as Hd.
  pose proof (iso_reads_as _ (representable_valid _ Wa Hra) Hra) as Hda.
  exists (strftime (advance d a)).
  assert (calculate_due_date (Str (strftime (advance d a))) b
          = Ok (strftime (advance d (a + b)))) as Hsecond.
  { rewrite (calculate_due_date_shift _ (advance d a) b Hda Hb).
    - rewrite advance_advance by exact Hw. reflexivity.
    - rewrite advance_advance by exact Hw. exact Hrab. }
  split; [exact (calculate_due_date_shift _ d a Hd Ha Hra)|].
  split; [|split; [exact Hsecond|]].
  - rewrite Hsecond. symmetry.
    exact (calculate_due_date_shift _ d (a + b) Hd Hab Hrab).
  - intros ->. rewrite Hsecond. replace (a + - a) with 0 by lia.
    rewrite advance_zero. reflexivity.
Qed.

Lemma calculate_due_date_chain_witness :
  let d := mkdate 2024 1 31 in
  valid d = true /\ representable d /\
  Z.abs 30 <= MAX_TIMEDELTA_DAYS /\ Z.abs 60 <= MAX_TIMEDELTA_DAYS /\
  Z.abs (30 + 60) <= MAX_TIMEDELTA_DAYS /\
  representable (advance d 30) /\ representable (advance d (30 + 60)) /\
  exists first,
    calculate_due_date (Str "2024-01-31") 30 = Ok first /\
    calculate_due_date (Str first) 60
    = calculate_due_date (Str "2024-01-31") 90.
Proof.
  intros d.
  assert (valid d = true) as Hv by reflexivity.
  assert (representable d) as Hr by reflexivity.
  assert (Z.abs 30 <= MAX_TIMEDELTA_DAYS) as Ha by (vm_compute; congruence).
  assert (Z.abs 60 <= MAX_TIMEDELTA_DAYS) as Hb by (vm_compute; congruence).
  assert (Z.abs (30 + 60) <= MAX_TIMEDELTA_DAYS) as Hab
    by (vm_compute; congruence).
  assert (representable (advance d 30)) as Hra by reflexivity.
  assert (representable (advance d (30 + 60))) as Hrab by reflexivity.
  destruct (calculate_due_date_chain d 30 60 Hv Hr Ha Hb Hab Hra Hrab)
    as (first & H1 & H2 & _).
  split; [exact Hv|]. split; [exact Hr|]. split; [exact Ha|].
  split; [exact Hb|]. split; [exact Hab|]. split; [exact Hra|].
  split; [exact Hrab|]. exists first. split; [exact H1 | exact H2].
Defined.

(** ** The classifier over time and on times of day *)

(** X6. As the days pass a due date only becomes more pressing: between
    two clock dates, the later one never gives a status earlier in the
    order Upcoming, Due Soon, Due Today, Overdue; and once Overdue a due
    date stays Overdue. *)
Theorem status_grows_pressing `{Parser} now later v d :
  clock now -> clock later -> toordinal now <= toordinal later ->
  reads_as v d ->
  exists status status',
    get_payment_status now v = Ok status /\
    get_payment_status later v = Ok status' /\
    (urgency status <= urgency status')%nat /\
    (status = label Overdue -> status' = label Overdue).
Proof.
  intros Hc Hc' Hle Hr.
  rewrite (get_payment_status_reads_as now v d Hc Hr).
  rewrite (get_payment_status_reads_as later v d Hc' Hr).
  eexists _, _. split; [reflexivity|]. split; [reflexivity|].
  unfold days_between.
  destruct (Z.ltb_spec (toordinal d - toordinal now) 0);
    destruct (Z.ltb_spec (toordinal d - toordinal later) 0); try lia;
    [split; [cbn; lia | reflexivity] | |];
    destruct (Z.eqb_spec (toordinal d - toordinal now) 0);
    try destruct (Z.eqb_spec (toordinal d - toordinal later) 0); try lia;
    try destruct (Z.leb_spec (toordinal d - toordinal now) 7);
    try destruct (Z.leb_spec (toordinal d - toordinal later) 7); try lia;
    (split; [cbn; lia | discriminate]).
Qed.

Lemma status_grows_pressing_witness :
  clock (mkdate 2024 6 10) /\ clock (mkdate 2024 6 14) /\
  toordinal (mkdate 2024 6 10) <= toordinal (mkdate 2024 6 14) /\
  reads_as (Str "2024-06-20") (mkdate 2024 6 20) /\
  exists status status',
    get_payment_status (mkdate 2024 6 10) (Str "2024-06-20") = Ok status /\
    get_payment_status (mkdate 2024 6 14) (Str "2024-06-20") = Ok status' /\
    (urgency status <= urgency status')%nat.
Proof.
  assert (clock (mkdate 2024 6 10)) as Hc
    by (repeat split; vm_compute; congruence).
  assert (clock (mkdate 2024 6 14)) as Hc'
    by (repeat split; vm_compute; congruence).
  assert (toordinal (mkdate 2024 6 10) <= toordinal (mkdate 2024 6 14)) as Hle
    by (vm_compute; congruence).
  assert (reads_as (Str "2024-06-20") (mkdate 2024 6 20)) as Hr
    by (repeat split).
  destruct (status_grows_pressing (mkdate 2024 6 10) (mkdate 2024 6 14)
              (Str "2024-06-20") (mkdate 2024 6 20) Hc Hc' Hle Hr)
    as (status & status' & H1 & H2 & Hu & _).
  split; [exact Hc|]. split; [exact Hc'|]. split; [exact Hle|].
  split; [exact Hr|]. exists status, status'.
  split; [exact H1|]. split; [exact H2 | exact Hu].
Defined.

(** X7. The classifier compares timestamps, not days, and counts whole
    days rounded down.  For a cell that parses to any timestamp [t], with
    [today] the midnight of the clock date: Overdue exactly when [t] is
    before [today], Due Today only when [t] is [today] to the nanosecond,
    Due Soon for every later [t] less than eight days after [today], and
    Upcoming from eight days on.  So a due time later today is Due Soon, and
    so is one seven days and some hours ahead. *)
Theorem get_payment_status_timestamp `{Parser} now v t :
  clock now -> isna v = false -> eq_text v "" = false ->
  to_datetime v = Ok (Scalar t) ->
  let today := midnight now in
  let status := get_payment_status now v in
  (status = Ok (label Overdue) <-> t < today) /\
  (status = Ok (label DueToday) <-> t = today) /\
  (status = Ok (label DueSoon) <-> today < t < today + 8 * NS_PER_DAY) /\
  (status = Ok (label Upcoming) <-> today + 8 * NS_PER_DAY <= t).
Proof.
  intros Hc Hna Hne Hv today status. subst status.
  unfold get_payment_status.
  rewrite Hna, Hne, Hv, (Timestamp_of_date_clock now Hc).
  cbn [orb mbind result_bind try_except datetime_lt datetime_eq]. fold today.
  destruct (Z.ltb_spec t today) as [L|L].
  { cbn [try_except]. repeat split; intros; try discriminate; try lia.
    all: unfold NS_PER_DAY in *; lia. }
  destruct (Z.eqb_spec t today) as [E|E].
  { cbn [try_except]. repeat split; intros; try discriminate; try lia.
    all: unfold NS_PER_DAY in *; lia. }
  cbn [datetime_sub]. unfold Timestamp_sub.
  assert (in_bounds (t - today) = true) as ->.
  { apply to_datetime_bounds, in_bounds_spec in Hv.
    destruct Hc as (_ & Hepoch & _). apply in_bounds_spec.
    fold today in Hepoch. lia. }
  cbn [mbind result_bind days number_le]. unfold Timedelta_days.
  assert ((t - today) / NS_PER_DAY <= 7 <-> t < today + 8 * NS_PER_DAY) as Hdays.
  { unfold NS_PER_DAY. split; intros Hd.
    - Z.to_euclidean_division_equations. lia.
    - Z.to_euclidean_division_equations. lia. }
  destruct (Z.leb_spec ((t - today) / NS_PER_DAY) 7) as [D|D];
    cbn [try_except]; repeat split; intros; try discriminate; try lia.
Qed.

Lemma get_payment_status_timestamp_witness :
  let now := mkdate 2024 6 10 in
  let v := Num (midnight now + 7 * NS_PER_DAY + 3600000000000) in
  clock now /\ isna v = false /\ eq_text v "" = false /\
  to_datetime v = Ok (Scalar (midnight now + 7 * NS_PER_DAY + 3600000000000)) /\
  get_payment_status now v = Ok (label DueSoon).
Proof.
  intros now v.
  assert (clock now) as Hc by (repeat split; vm_compute; congruence).
  assert (isna v = false) as Hna by reflexivity.
  assert (eq_text v "" = false) as Hne by reflexivity.
  assert (to_datetime v
          = Ok (Scalar (midnight now + 7 * NS_PER_DAY + 3600000000000)))
    as Hv by reflexivity.
  destruct (get_payment_status_timestamp now v _ Hc Hna Hne Hv)
    as (_ & _ & [_ Hsoon] & _).
  split; [exact Hc|]. split; [exact Hna|]. split; [exact Hne|].
  split; [exact Hv|]. apply Hsoon. vm_compute. split; reflexivity.
Defined.

(** ** What the two date functions never do *)

(** X16. Neither the classifier nor the calculator raises, whatever the
    cell, the frequency and the parser: a bare [except] closes every path.
    A cell that is missing, empty or that the parser raises on is classified
    Unknown and gets the empty due date. *)
Theorem date_functions_never_raise `{Parser} now v f :
  returns (get_payment_status now v) /\
  returns (calculate_due_date v f) /\
  (no_date v ->
   get_payment_status now v = Ok (label Unknown) /\
   calculate_due_date v f = Ok ""%string).
Proof.
  split; [apply get_payment_status_returns|].
  split; [apply calculate_due_date_returns|].
  intros Hv. split.
  - apply get_payment_status_no_date, Hv.
  - apply calculate_due_date_no_date, Hv.
Qed.

Lemma date_functions_never_raise_witness :
  no_date (Str "next week") /\
  get_payment_status (mkdate 2024 6 10) (Str "next week") = Ok (label Unknown) /\
  calculate_due_date (Str "next week") 30 = Ok ""%string.
Proof.
  assert (no_date (Str "next week")) as Hv
    by (right; right; exists ValueError; reflexivity).
  destruct (date_functions_never_raise (mkdate 2024 6 10) (Str "next week") 30)
    as (_ & _ & Hno).
  split; [exact Hv | exact (Hno Hv)].
Defined.

(** ** The colours of the status column *)

(** X8. Every status the classifier can give is styled, each in its own
    way, except Unknown: the style of a recomputed status cell is empty
    exactly when the status is Unknown, two different statuses never share a
    style, and a missing cell or any other text gets no style. *)
Theorem color_payment_status_statuses `{Parser} now v :
  (exists s,
     get_payment_status now v = Ok (label s) /\
     (color_payment_status (Str (label s)) = ""%string <-> s = Unknown)) /\
  (forall a b,
     color_payment_status (Str (label a)) = color_payment_status (Str (label b))
     -> a = b) /\
  color_payment_status NaN = ""%string /\
  (forall text, (forall s, text <> label s) ->
     color_payment_status (Str text) = ""%string).
Proof.
  split; [|split; [|split]].
  - destruct (get_payment_status_label now v) as [s Hs]. exists s.
    split; [exact Hs|]. destruct s; split; intros E;
      first [reflexivity | discriminate].
  - intros a b. destruct a, b; intros E; first [reflexivity | discriminate].
  - reflexivity.
  - intros text Hno. unfold color_payment_status, eq_text.
    destruct (String.eqb_spec text "Overdue") as [->|_];
      [exfalso; exact (Hno Overdue eq_refl)|].
    destruct (String.eqb_spec text "Due Today") as [->|_];
      [exfalso; exact (Hno DueToday eq_refl)|].
    destruct (String.eqb_spec text "Due Soon") as [->|_];
      [exfalso; exact (Hno DueSoon eq_refl)|].
    destruct (String.eqb_spec text "Upcoming") as [->|_];
      [exfalso; exact (Hno Upcoming eq_refl)|].
    reflexivity.
Qed.

(** ** Deleting, again *)

Lemma cell_delete df i col j :
  cell (mkDataFrame (delete i (index df))
          ((fun c => (c.1, delete i c.2)) <$> columns df)) col j
  = if decide (j < i)%nat then cell df col j else cell df col (S j).
Proof.
  unfold cell. cbn [columns].
  rewrite (lookup_column_fmap (fun _ cells => delete i cells)).
  destruct (lookup_column col (columns df)) as [cells|];
    cbn [fmap option_fmap option_map mbind option_bind].
  - destruct (decide (j < i)%nat).
    + apply list_lookup_delete_lt. assumption.
    + apply list_lookup_delete_ge. lia.
  - destruct (decide (j < i)%nat); reflexivity.
Qed.

Lemma reset_index_table df : table df -> table (reset_index df).
Proof.
  intros [Hlen Hnd]. split; [|exact Hnd].
  rewrite len_reset_index. exact Hlen.
Qed.

Lemma delete_table df n i :
  table df -> index df = RangeIndex n -> 0 <= i < Z.of_nat n ->
  table (mkDataFrame (delete (Z.to_nat i) (index df))
           ((fun c => (c.1, delete (Z.to_nat i) c.2)) <$> columns df)) /\
  len (mkDataFrame (delete (Z.to_nat i) (index df))
         ((fun c => (c.1, delete (Z.to_nat i) c.2)) <$> columns df))
  = (n - 1)%nat.
Proof.
  intros [Hlen Hnd] Hidx Hi.
  assert (len df = n) as Hn
    by (unfold len; rewrite Hidx; apply len_RangeIndex).
  assert (length (delete (Z.to_nat i) (index df)) = (n - 1)%nat) as Hdel.
  { rewrite length_delete.
    - unfold len in Hn. lia.
    - apply lookup_lt_is_Some_2. unfold len in Hn. lia. }
  split; [|exact Hdel]. split.
  - unfold len. cbn [index columns]. rewrite Hdel. apply Forall_fmap.
    eapply Forall_impl; [exact Hlen|]. intros [c cells] Hc.
    cbn [compose fst snd] in *. rewrite length_delete.
    + lia.
    + apply lookup_lt_is_Some_2. lia.
  - cbn [columns].
    rewrite (names_fmap (fun _ cells => delete (Z.to_nat i) cells)).
    exact Hnd.
Qed.

(** The delete step on the table alone. *)
Lemma delete_from_session_Ok history n i :
  table history -> index history = RangeIndex n -> 0 <= i < Z.of_nat n ->
  exists kept,
    delete_from_session i history = Ok kept /\
    table kept /\ index kept = RangeIndex (n - 1) /\
    (forall j, row kept j
       = if decide (j < Z.to_nat i)%nat then row history j
         else row history (S j)) /\
    (forall col j, cell kept col j
       = if decide (j < Z.to_nat i)%nat then cell history col j
         else cell history col (S j)).
Proof.
  intros Ht Hidx Hi. unfold delete_from_session.
  rewrite (drop_RangeIndex _ n i Ht Hidx Hi). cbn [mbind result_bind].
  destruct (delete_table history n i Ht Hidx Hi) as [Htable Hlen].
  eexists. split; [reflexivity|].
  split; [apply reset_index_table, Htable|].
  split; [rewrite index_reset_index, Hlen; reflexivity|]. split.
  - intros j. rewrite row_reset_index. apply row_delete.
  - intros col j.
    change (cell (reset_index ?d) col j) with (cell d col j).
    apply cell_delete.
Qed.

(** X9. In the earliest version, whose table stays in the session state,
    pressing delete twice with the same index [i] removes the row at [i] and
    the row that followed it: after the first press that row has moved to
    position [i].  The rows before [i] stay, the rows after move two
    positions down. *)
Theorem delete_from_session_twice history n i :
  table history -> index history = RangeIndex n ->
  0 <= i -> i + 1 < Z.of_nat n ->
  exists once twice,
    delete_from_session i history = Ok once /\
    delete_from_session i once = Ok twice /\
    index twice = RangeIndex (n - 2) /\
    (forall j, (j < Z.to_nat i)%nat -> row twice j = row history j) /\
    (forall j, (Z.to_nat i <= j)%nat -> row twice j = row history (S (S j))).
Proof.
  intros Ht Hidx Hi0 Hi.
  destruct (delete_from_session_Ok history n i Ht Hidx ltac:(lia))
    as (once & H1 & Ht1 & Hidx1 & Hrow1 & _).
  destruct (delete_from_session_Ok once (n - 1) i Ht1 Hidx1 ltac:(lia))
    as (twice & H2 & _ & Hidx2 & Hrow2 & _).
  exists once, twice. split; [exact H1|]. split; [exact H2|].
  split; [rewrite Hidx2; f_equal; lia|]. split.
  - intros j Hj. rewrite Hrow2, Hrow1.
    destruct (decide (j < Z.to_nat i)%nat); [reflexivity | lia].
  - intros j Hj. rewrite Hrow2.
    destruct (decide (j < Z.to_nat i)%nat); [lia|]. rewrite Hrow1.
    destruct (decide (S j < Z.to_nat i)%nat); [lia | reflexivity].
Qed.

Lemma delete_from_session_twice_witness :
  let history := mkDataFrame [0; 1; 2; 3]
                   [("City", [Str "Agra"; Str "Pune"; Str "Delhi"; Str "Kochi"])]%string in
  table history /\ index history = RangeIndex 4 /\ 0 <= 1 /\
  1 + 1 < Z.of_nat 4 /\
  exists once twice,
    delete_from_session 1 history = Ok once /\
    delete_from_session 1 once = Ok twice /\
    row twice 0 = row history 0 /\ row twice 1 = row history 3.
Proof.
  intros history.
  assert (table history) as Ht.
  { split.
    - repeat constructor.
    - apply (bool_decide_unpack _). reflexivity. }
  assert (index history = RangeIndex 4) as Hidx by reflexivity.
  assert (0 <= 1) as H0 by (vm_compute; congruence).
  assert (1 + 1 < Z.of_nat 4) as H1 by reflexivity.
  destruct (delete_from_session_twice history 4 1 Ht Hidx H0 H1)
    as (once & twice & Ho & Htw & _ & Hbefore & Hafter).
  split; [exact Ht|]. split; [exact Hidx|]. split; [exact H0|].
  split; [exact H1|]. exists once, twice.
  split; [exact Ho|]. split; [exact Htw|]. split.
  - apply Hbefore. cbn. lia.
  - apply (Hafter 1%nat). cbn. lia.
Defined.

(** ** Loading, again *)

Lemma has_column_names df col :
  has_column df col = true <-> col ∈ (columns df).*1.
Proof.
  unfold has_column. split.
  - destruct (lookup_column col (columns df)) as [cells|] eqn:E; [|discriminate].
    intros _. exact (lookup_column_Some_name _ _ _ E).
  - intros Hin. destruct (lookup_column_name _ _ Hin) as [cells ->].
    reflexivity.
Qed.

Lemma add_missing_present df cols :
  (forall col, col ∈ cols -> has_column df col = true) ->
  foldl add_missing df cols = df.
Proof.
  revert df. induction cols as [|c cols IH]; intros df Hall; [reflexivity|].
  cbn [foldl]. unfold add_missing at 2. rewrite (Hall c) by left.
  cbn [negb]. apply IH. intros col Hin. apply Hall. right. exact Hin.
Qed.

Lemma add_missing_has df cols col :
  col ∈ cols -> has_column (foldl add_missing df cols) col = true.
Proof.
  intros Hin. unfold has_column.
  destruct (lookup_column col (columns df)) as [cells|] eqn:E.
  - rewrite (add_missing_keeps _ _ _ _ E). reflexivity.
  - rewrite (add_missing_adds _ _ _ Hin E). reflexivity.
Qed.

Lemma filter_ext_in {A} (P Q : A -> Prop)
  `{forall x, Decision (P x)} `{forall x, Decision (Q x)} (l : list A) :
  (forall x, x ∈ l -> P x <-> Q x) -> filter P l = filter Q l.
Proof.
  induction l as [|x l IH]; [reflexivity|]. intros Hext.
  assert (filter P l = filter Q l) as IH'
    by (apply IH; intros y Hy; apply Hext; right; exact Hy).
  destruct (decide (P x)) as [Hp|Hp].
  - rewrite filter_cons_True by exact Hp.
    rewrite (filter_cons_True Q) by (apply (Hext x); [left | exact Hp]).
    rewrite IH'. reflexivity.
  - rewrite filter_cons_False by exact Hp.
    rewrite (filter_cons_False Q);
      [exact IH' | intros Hq; apply Hp, (Hext x); [left | exact Hq]].
Qed.

Lemma add_missing_names df cols :
  NoDup cols ->
  (columns (foldl add_missing df cols)).*1
  = (columns df).*1 ++ filter (fun col => col ∉ (columns df).*1) cols.
Proof.
  revert df. induction cols as [|c cols IH]; intros df Hnd.
  - cbn [foldl]. rewrite filter_nil, app_nil_r. reflexivity.
  - apply NoDup_cons in Hnd as [Hc Hnd]. cbn [foldl]. rewrite (IH _ Hnd).
    unfold add_missing. destruct (has_column df c) eqn:Hhas; cbn [negb].
    + rewrite filter_cons_False; [reflexivity|].
      intros Hnin. apply Hnin, has_column_names, Hhas.
    + assert (c ∉ (columns df).*1) as Hnin
        by (intros Hin; apply has_column_names in Hin; congruence).
      rewrite filter_cons_True by exact Hnin.
      unfold setitem_scalar, setitem. cbn [columns].
      rewrite set_column_names. unfold has_column in Hhas.
      destruct (lookup_column c (columns df)); [discriminate|].
      rewrite <- app_assoc. cbn [app]. f_equal. f_equal.
      apply filter_ext_in. intros x Hx. rewrite elem_of_app.
      rewrite list_elem_of_singleton. split.
      * intros Hno Hin. apply Hno. left. exact Hin.
      * intros Hno [Hin | ->]; [exact (Hno Hin)|]. exact (Hc Hx).
Qed.

(** X10. Loading is a migration that settles: a stored table keeps its
    columns in their order, the required columns it lacks follow in the
    order of [required_cols], and loading what was loaded changes nothing
    more. *)
Theorem load_history_settles stored :
  (columns (load_history (Some stored))).*1
  = (columns stored).*1
    ++ filter (fun col => col ∉ (columns stored).*1) required_cols /\
  load_history (Some (load_history (Some stored))) = load_history (Some stored) /\
  ((forall col, col ∈ required_cols -> has_column stored col = true) ->
   load_history (Some stored) = stored).
Proof.
  unfold load_history. split; [apply add_missing_names, required_cols_NoDup|].
  split.
  - apply add_missing_present. intros col Hin. apply add_missing_has, Hin.
  - apply add_missing_present.
Qed.

Lemma load_history_settles_witness :
  let stored := load_history None in
  (forall col, col ∈ required_cols -> has_column stored col = true) /\
  load_history (Some stored) = stored.
Proof.
  intros stored.
  assert (forall col, col ∈ required_cols -> has_column stored col = true)
    as Hall.
  { apply Forall_forall. apply (bool_decide_unpack _). reflexivity. }
  destruct (load_history_settles stored) as (_ & _ & Hsame).
  split; [exact Hall | exact (Hsame Hall)].
Defined.

(** ** The dashboard on what was loaded *)

Section Management.

Context `{Parser}.

Lemma recompute_statuses_rows now df due :
  table df -> lookup_column "Next Payment Due Date" (columns df) = Some due ->
  exists status,
    recompute_statuses now df
    = Ok (setitem df "Payment Status" (Str <$> status)) /\
    length status = len df /\
    Forall2 (fun d s => get_payment_status now d = Ok s) due status.
Proof.
  intros Ht Hl.
  assert (getitem df "Next Payment Due Date" = Ok due) as Hget
    by (unfold getitem; rewrite Hl; reflexivity).
  destruct (recompute_statuses_Ok now df due Hget) as (status & Happ & Hre).
  exists status. split; [exact Hre|]. apply apply_Forall2 in Happ.
  split; [|exact Happ].
  rewrite <- (Forall2_length _ _ _ Happ).
  exact (table_column_length _ _ _ Ht Hl).
Qed.

Lemma summary_status_counts df cells :
  lookup_column "Payment Status" (columns df) = Some cells ->
  exists tenant_summary,
    select df (filter (fun col => has_column df col) tenant_cols)
    = Ok tenant_summary /\
    status_counts tenant_summary = Ok (value_counts cells).
Proof.
  intros Hst.
  destruct (select_lookup df (filter (fun col => has_column df col) tenant_cols))
    as (picked & Hsel & Hpicked).
  { apply Forall_forall. intros col Hin. apply list_elem_of_filter in Hin.
    destruct Hin as [Hin _]. destruct (has_column df col); [reflexivity|].
    contradiction. }
  eexists. split; [exact Hsel|]. unfold status_counts, getitem.
  cbn [columns]. rewrite Hpicked.
  - rewrite Hst. reflexivity.
  - apply list_elem_of_filter. split.
    + unfold has_column. rewrite Hst. exact I.
    + unfold tenant_cols. repeat (first [left | right]).
Qed.

Lemma dashboard_Ok now df due :
  table df -> lookup_column "Next Payment Due Date" (columns df) = Some due ->
  empty df = false ->
  exists status,
    Forall2 (fun d s => get_payment_status now d = Ok s) due status /\
    length status = len df /\
    dashboard now df
    = Ok (setitem df "Payment Status" (Str <$> status),
          Some (overview (value_counts (Str <$> status)))).
Proof.
  intros Ht Hl Hne.
  destruct (recompute_statuses_rows now df due Ht Hl)
    as (status & Hre & Hlen & Hall).
  exists status. split; [exact Hall|]. split; [exact Hlen|].
  destruct (summary_status_counts
              (setitem df "Payment Status" (Str <$> status)) (Str <$> status))
    as (tenant_summary & Hsel & Hcounts); [apply lookup_set_column_eq|].
  unfold dashboard. rewrite Hne, Hre. cbn [negb mbind result_bind].
  rewrite Hsel. cbn [mbind result_bind]. rewrite Hcounts. reflexivity.
Qed.

(** X11. On whatever [load_history] gives, the dashboard does not raise:
    with no history file it shows nothing, and for a stored table it goes
    through.  It is the loading that makes it so: on a table with a row and
    no due-date column the dashboard raises [KeyError]. *)
Theorem dashboard_loaded_returns now stored :
  table stored ->
  returns (dashboard now (load_history (Some stored))) /\
  dashboard now (load_history None) = Ok (load_history None, None) /\
  (forall df, empty df = false ->
     has_column df "Next Payment Due Date" = false ->
     dashboard now df = Raise KeyError).
Proof.
  intros Ht. split; [|split; [unfold dashboard; cbn; reflexivity|]].
  - change (load_history (Some stored))
      with (foldl add_missing stored required_cols).
    pose proof (add_missing_table stored required_cols Ht) as Htable.
    assert (has_column (foldl add_missing stored required_cols)
              "Next Payment Due Date" = true) as Hcol.
    { apply add_missing_has. apply (bool_decide_unpack _). reflexivity. }
    set (df := foldl add_missing stored required_cols) in *.
    destruct (empty df) eqn:Hempty.
    + unfold dashboard. rewrite Hempty. eexists. reflexivity.
    + destruct (has_column_getitem _ _ Hcol) as (due & _ & Hl).
      destruct (dashboard_Ok now df due Htable Hl Hempty)
        as (status & _ & _ & Hd).
      eexists. exact Hd.
  - intros df Hne Hno. unfold dashboard, recompute_statuses, getitem.
    rewrite Hne. unfold has_column in Hno.
    destruct (lookup_column "Next Payment Due Date" (columns df));
      [discriminate | reflexivity].
Qed.

End Management.

Lemma dashboard_loaded_returns_witness :
  let stored := mkDataFrame [0; 1]
                  [("BHK", [Num 2; Num 3]);
                   ("City", [Str "Pune"; Str "Delhi"])]%string in
  table stored /\
  returns (dashboard (mkdate 2024 6 10) (load_history (Some stored))) /\
  dashboard (mkdate 2024 6 10) stored = Raise KeyError.
Proof.
  intros stored.
  assert (table stored) as Ht.
  { split.
    - repeat constructor.
    - apply (bool_decide_unpack _). reflexivity. }
  destruct (dashboard_loaded_returns (mkdate 2024 6 10) stored Ht)
    as (Hret & _ & Hraise).
  split; [exact Ht|]. split; [exact Hret|]. apply Hraise; reflexivity.
Defined.

(** ** A history written by an earlier version *)

Lemma Forall2_replicate {A B} (f : A -> result B) n x y l :
  f x = Ok y -> Forall2 (fun d s => f d = Ok s) (replicate n x) l ->
  l = replicate n y.
Proof.
  intros Hxy. revert l. induction n as [|n IH]; intros l Hall.
  - inversion Hall. reflexivity.
  - cbn [replicate] in *. inversion Hall as [|? s ? l' Hs Hrest]; subst.
    rewrite (IH _ Hrest). f_equal. congruence.
Qed.

Lemma occurrences_replicate_other n (v w : value) :
  v <> w -> occurrences v (replicate n w) = 0%nat.
Proof.
  intros Hne. apply occurrences_not_elem_of. intros Hin.
  apply elem_of_replicate in Hin as [Heq _]. congruence.
Qed.

Lemma overview_all_unknown n :
  overview (value_counts (Str <$> replicate n (label Unknown)))
  = [("Overdue", 0); ("Due Soon", 0); ("Due Today", 0);
     ("Upcoming", 0)]%string%nat.
Proof.
  unfold overview. rewrite fmap_replicate.
  rewrite (get_value_counts (Str "Overdue")) by reflexivity.
  rewrite (get_value_counts (Str "Due Soon")) by reflexivity.
  rewrite (get_value_counts (Str "Due Today")) by reflexivity.
  rewrite (get_value_counts (Str "Upcoming")) by reflexivity.
  rewrite !occurrences_replicate_other by discriminate. reflexivity.
Qed.

Lemma earlier_cols_completed :
  earlier_cols ++ filter (fun col => col ∉ earlier_cols) required_cols
  = required_cols.
Proof. vm_compute. reflexivity. Qed.

Lemma load_history_earlier_names stored :
  (columns stored).*1 = earlier_cols ->
  (columns (foldl add_missing stored required_cols)).*1 = required_cols.
Proof.
  intros Hcols. rewrite add_missing_names by apply required_cols_NoDup.
  rewrite Hcols. exact earlier_cols_completed.
Qed.

Lemma setitem_names df col cells :
  has_column df col = true ->
  (columns (setitem df col cells)).*1 = (columns df).*1.
Proof.
  intros Hcol. unfold setitem. cbn [columns]. rewrite set_column_names.
  unfold has_column in Hcol.
  destruct (lookup_column col (columns df)); [reflexivity | discriminate].
Qed.

(** The dashboard on a table whose due dates are all the empty text. *)
Lemma dashboard_all_unknown `{Parser} now df n :
  table df ->
  lookup_column "Next Payment Due Date" (columns df)
  = Some (replicate n (Str "")) ->
  len df = n -> n <> 0%nat ->
  dashboard now df
  = Ok (setitem df "Payment Status" (Str <$> replicate n (label Unknown)),
        Some [("Overdue", 0); ("Due Soon", 0); ("Due Today", 0);
              ("Upcoming", 0)]%string%nat) /\
  (forall i, (i < n)%nat ->
     cell (setitem df "Payment Status" (Str <$> replicate n (label Unknown)))
       "Next Payment Due Date" i = Some (Str "") /\
     cell (setitem df "Payment Status" (Str <$> replicate n (label Unknown)))
       "Payment Status" i = Some (Str (label Unknown))).
Proof.
  intros Ht Hdue Hlen Hn.
  assert (empty df = false) as Hne.
  { unfold empty. apply orb_false_iff. split.
    - apply Nat.eqb_neq. lia.
    - apply lookup_column_elem_of in Hdue.
      destruct (columns df); [apply elem_of_nil in Hdue; contradiction|].
      reflexivity. }
  destruct (dashboard_Ok now df _ Ht Hdue Hne) as (status & Hall & _ & Hd).
  apply (Forall2_replicate (get_payment_status now) _ _ (label Unknown))
    in Hall; [|reflexivity]. subst status. split.
  - rewrite Hd, overview_all_unknown. reflexivity.
  - intros i Hi. unfold cell, setitem. cbn [columns].
    rewrite lookup_set_column_ne by discriminate.
    rewrite lookup_set_column_eq, Hdue. cbn [mbind option_bind].
    rewrite fmap_replicate. split; apply lookup_replicate_2, Hi.
Qed.

(** X12. A history that has no due-date column, as the earlier versions of
    the application wrote it, comes out of loading with the empty text as
    every due date; the dashboard then classifies every row Unknown and
    shows 0 for each of the four counts.  When the stored columns are the
    twelve of the earlier versions the loaded columns are the seventeen
    required ones in their order. *)
Theorem earlier_history_unknown `{Parser} now stored :
  table stored -> has_column stored "Next Payment Due Date" = false ->
  empty stored = false ->
  exists df',
    dashboard now (load_history (Some stored))
    = Ok (df', Some [("Overdue", 0); ("Due Soon", 0); ("Due Today", 0);
                     ("Upcoming", 0)]%string%nat) /\
    (forall i, (i < len stored)%nat ->
       cell df' "Next Payment Due Date" i = Some (Str "") /\
       cell df' "Payment Status" i = Some (Str (label Unknown))) /\
    ((columns stored).*1 = earlier_cols -> (columns df').*1 = required_cols).
Proof.
  intros Ht Hno Hne. unfold load_history.
  assert (lookup_column "Next Payment Due Date"
            (columns (foldl add_missing stored required_cols))
          = Some (replicate (len stored) (Str ""))) as Hdue.
  { apply add_missing_adds.
    - apply (bool_decide_unpack _). reflexivity.
    - unfold has_column in Hno.
      destruct (lookup_column "Next Payment Due Date" (columns stored));
        [discriminate | reflexivity]. }
  assert (len (foldl add_missing stored required_cols) = len stored) as Hlen
    by (unfold len; rewrite add_missing_index; reflexivity).
  assert (empty stored = false -> len stored <> 0%nat) as Hrows.
  { unfold empty. intros Hempty. apply orb_false_iff in Hempty as [Hr _].
    apply Nat.eqb_neq in Hr. exact Hr. }
  destruct (dashboard_all_unknown now _ (len stored)
              (add_missing_table stored required_cols Ht) Hdue Hlen
              (Hrows Hne)) as [Hd Hcells].
  eexists. split; [exact Hd|]. split; [exact Hcells|].
  intros Hcols. rewrite setitem_names.
  - apply load_history_earlier_names, Hcols.
  - apply (add_missing_has stored required_cols).
    apply (bool_decide_unpack _). reflexivity.
Qed.

Lemma earlier_history_unknown_witness :
  let stored := mkDataFrame [0; 1]
                  [("BHK", [Num 2; Num 3]);
                   ("Predicted Rent", [Num 15000; Num 32000])]%string in
  table stored /\ has_column stored "Next Payment Due Date" = false /\
  empty stored = false /\
  exists df',
    dashboard (mkdate 2024 6 10) (load_history (Some stored))
    = Ok (df', Some [("Overdue", 0); ("Due Soon", 0); ("Due Today", 0);
                     ("Upcoming", 0)]%string%nat) /\
    cell df' "Payment Status" 1 = Some (Str (label Unknown)).
Proof.
  intros stored.
  assert (table stored) as Ht.
  { split.
    - repeat constructor.
    - apply (bool_decide_unpack _). reflexivity. }
  assert (has_column stored "Next Payment Due Date" = false) as Hno
    by reflexivity.
  assert (empty stored = false) as Hne by reflexivity.
  destruct (earlier_history_unknown (mkdate 2024 6 10) stored Ht Hno Hne)
    as (df' & Hd & Hrows & _).
  split; [exact Ht|]. split; [exact Hno|]. split; [exact Hne|].
  exists df'. split; [exact Hd|]. apply (Hrows 1%nat). cbn. lia.
Defined.

(** ** The tenant management section as a whole *)

Lemma delete_row_from_session i s :
  delete_row i s =
  match delete_from_session i (history_df s) with
  | Ok kept =>
      (Ok (), mkSession kept (Some kept) (notices s ++ [Row_deleted i]))
  | Raise e => (Raise e, s)
  end.
Proof.
  unfold delete_row, delete_from_session.
  destruct (drop (history_df s) i); reflexivity.
Qed.

Lemma empty_false df col cells :
  lookup_column col (columns df) = Some cells -> len df <> 0%nat ->
  empty df = false.
Proof.
  intros Hl Hn. unfold empty. apply orb_false_iff. split.
  - apply Nat.eqb_neq. exact Hn.
  - apply lookup_column_elem_of in Hl.
    destruct (columns df); [apply elem_of_nil in Hl; contradiction|].
    reflexivity.
Qed.

Section TenantManagement.

Context `{Parser}.

(** The section up to the delete button, on a table with rows. *)
Lemma tenant_management_recomputes now delete_index s due :
  table (history_df s) ->
  lookup_column "Next Payment Due Date" (columns (history_df s)) = Some due ->
  empty (history_df s) = false ->
  exists status,
    Forall2 (fun d st => get_payment_status now d = Ok st) due status /\
    recompute_statuses now (history_df s)
    = Ok (setitem (history_df s) "Payment Status" (Str <$> status)) /\
    tenant_management now delete_index s =
    let s1 := mkSession (setitem (history_df s) "Payment Status" (Str <$> status))
                (HISTORY_FILE s) (notices s) in
    match delete_index with
    | Some i => delete_row i s1
    | None => (Ok (), s1)
    end.
Proof.
  intros Ht Hl Hne.
  destruct (recompute_statuses_rows now _ due Ht Hl)
    as (status & Hre & _ & Hall).
  exists status. split; [exact Hall|]. split; [exact Hre|].
  destruct (summary_status_counts
              (setitem (history_df s) "Payment Status" (Str <$> status))
              (Str <$> status))
    as (tenant_summary & Hsel & Hcounts); [apply lookup_set_column_eq|].
  unfold tenant_management. rewrite Hne, Hre. cbn [negb]. rewrite Hsel.
  cbn [mbind result_bind]. rewrite Hcounts. reflexivity.
Qed.

(** X13. Looking at the dashboard writes nothing: without a press of the
    delete button the section returns, and history file and notices are what
    they were, while the table in memory carries the recomputed statuses; on
    an empty table nothing changes at all.  The statuses in the file stay as
    stored until an entry is added or a row deleted. *)
Theorem tenant_management_view now s :
  table (history_df s) ->
  has_column (history_df s) "Next Payment Due Date" = true ->
  exists s',
    tenant_management now None s = (Ok (), s') /\
    HISTORY_FILE s' = HISTORY_FILE s /\
    notices s' = notices s /\
    (empty (history_df s) = false ->
     recompute_statuses now (history_df s) = Ok (history_df s')) /\
    (empty (history_df s) = true -> s' = s).
Proof.
  intros Ht Hcol. destruct (has_column_getitem _ _ Hcol) as (due & _ & Hl).
  destruct (empty (history_df s)) eqn:Hempty.
  - exists s. unfold tenant_management. rewrite Hempty.
    repeat split; [discriminate].
  - destruct (tenant_management_recomputes now None s due Ht Hl Hempty)
      as (status & _ & Hre & Hrun).
    eexists. split; [exact Hrun|]. cbn [HISTORY_FILE notices history_df].
    split; [reflexivity|]. split; [reflexivity|].
    split; [intros _; exact Hre | discriminate].
Qed.


(** X14. Deleting a row writes fresh statuses: when the delete button is
    pressed with an index in range, the table written to the history file is
    the recomputed table less that row, so every row of the file carries the
    status the classifier gives today for the due date of that row, whatever
    status was stored for it before. *)
Theorem tenant_management_delete now s n i :
  table (history_df s) -> index (history_df s) = RangeIndex n ->
  has_column (history_df s) "Next Payment Due Date" = true ->
  0 <= i < Z.of_nat n ->
  exists s',
    tenant_management now (Some i) s = (Ok (), s') /\
    HISTORY_FILE s' = Some (history_df s') /\
    index (history_df s') = RangeIndex (n - 1) /\
    forall j, (j < n - 1)%nat ->
      exists due status,
        cell (history_df s) "Next Payment Due Date"
          (if decide (j < Z.to_nat i)%nat then j else S j) = Some due /\
        cell (history_df s') "Next Payment Due Date" j = Some due /\
        get_payment_status now due = Ok status /\
        cell (history_df s') "Payment Status" j = Some (Str status).
Proof.
  intros Ht Hidx Hcol Hi.
  destruct (has_column_getitem _ _ Hcol) as (due & _ & Hl).
  assert (len (history_df s) = n) as Hn
    by (unfold len; rewrite Hidx; apply len_RangeIndex).
  assert (empty (history_df s) = false) as Hne
    by (apply (empty_false _ _ _ Hl); lia).
  destruct (tenant_management_recomputes now (Some i) s due Ht Hl Hne)
    as (status & Hall & _ & Hrun).
  set (df1 := setitem (history_df s) "Payment Status" (Str <$> status)) in *.
  assert (length status = n) as Hlen.
  { rewrite <- (Forall2_length _ _ _ Hall), <- Hn.
    exact (table_column_length _ _ _ Ht Hl). }
  assert (table df1) as Ht1
    by (apply setitem_table; [exact Ht | rewrite length_fmap; lia]).
  destruct (delete_from_session_Ok df1 n i Ht1 Hidx Hi)
    as (kept & Hdel & _ & Hidx' & _ & Hcell).
  exists (mkSession kept (Some kept) (notices s ++ [Row_deleted i])).
  split.
  { rewrite Hrun. cbv zeta. rewrite delete_row_from_session.
    cbn [history_df notices]. fold df1. rewrite Hdel. reflexivity. }
  cbn [history_df HISTORY_FILE]. split; [reflexivity|].
  split; [exact Hidx'|]. intros j Hj. rewrite !Hcell.
  set (k := if decide (j < Z.to_nat i)%nat then j else S j).
  assert (k < n)%nat as Hk
    by (unfold k; destruct (decide (j < Z.to_nat i)%nat); lia).
  assert (length due = n) as Hdue
    by (rewrite <- Hn; exact (table_column_length _ _ _ Ht Hl)).
  destruct (lookup_lt_is_Some_2 due k ltac:(lia)) as [d Hd].
  destruct (Forall2_lookup_l _ _ _ _ _ Hall Hd) as (st & Hst & Hfs).
  exists d, st.
  assert (cell (history_df s) "Next Payment Due Date" k = Some d) as Hold
    by (unfold cell; rewrite Hl; exact Hd).
  assert (cell df1 "Next Payment Due Date" k = Some d) as Hnew.
  { unfold cell, df1, setitem. cbn [columns].
    rewrite lookup_set_column_ne by discriminate. rewrite Hl. exact Hd. }
  assert (cell df1 "Payment Status" k = Some (Str st)) as Hstatus.
  { unfold cell, df1, setitem. cbn [columns]. rewrite lookup_set_column_eq.
    cbn [mbind option_bind]. rewrite list_lookup_fmap, Hst. reflexivity. }
  unfold k in *. destruct (decide (j < Z.to_nat i)%nat);
    (split; [exact Hold|]; split; [exact Hnew|]; split;
     [exact Hfs | exact Hstatus]).
Qed.

End TenantManagement.

Lemma tenant_management_delete_witness :
  let df := mkDataFrame [0; 1]
              [("Next Payment Due Date", [Str "2024-06-30"; Str "2024-05-31"]);
               ("Payment Status", [Str "Upcoming"; Str "Upcoming"])]%string in
  let s := mkSession df (Some df) [] in
  table (history_df s) /\ index (history_df s) = RangeIndex 2 /\
  has_column (history_df s) "Next Payment Due Date" = true /\
  0 <= 0 < Z.of_nat 2 /\
  exists s',
    tenant_management (mkdate 2024 6 10) (Some 0) s = (Ok (), s') /\
    HISTORY_FILE s' = Some (history_df s') /\
    exists status,
      get_payment_status (mkdate 2024 6 10) (Str "2024-05-31") = Ok status /\
      cell (history_df s') "Payment Status" 0 = Some (Str status).
Proof.
  intros df s.
  assert (table (history_df s)) as Ht.
  { split.
    - repeat constructor.
    - apply (bool_decide_unpack _). reflexivity. }
  assert (index (history_df s) = RangeIndex 2) as Hidx by reflexivity.
  assert (has_column (history_df s) "Next Payment Due Date" = true) as Hcol
    by reflexivity.
  assert (0 <= 0 < Z.of_nat 2) as Hi by (vm_compute; split; congruence).
  destruct (tenant_management_delete (mkdate 2024 6 10) s 2 0 Ht Hidx Hcol Hi)
    as (s' & Hrun & Hfile & _ & Hrows).
  split; [exact Ht|]. split; [exact Hidx|]. split; [exact Hcol|].
  split; [exact Hi|]. exists s'. split; [exact Hrun|]. split; [exact Hfile|].
  destruct (Hrows 0%nat ltac:(cbn; lia)) as (due & status & Hold & _ & Hs & Hc).
  injection Hold as <-. exists status. split; [exact Hs | exact Hc].
Defined.

Lemma tenant_management_view_witness :
  let df := mkDataFrame [0]
              [("Next Payment Due Date", [Str "2024-05-31"]);
               ("Payment Status", [Str "Upcoming"])]%string in
  let s := mkSession df (Some df) [] in
  table (history_df s) /\
  has_column (history_df s) "Next Payment Due Date" = true /\
  exists s',
    tenant_management (mkdate 2024 6 10) None s = (Ok (), s') /\
    HISTORY_FILE s' = Some df /\
    cell (history_df s') "Payment Status" 0 = Some (Str "Overdue").
Proof.
  intros df s.
  assert (table (history_df s)) as Ht.
  { split.
    - repeat constructor.
    - apply (bool_decide_unpack _). reflexivity. }
  assert (has_column (history_df s) "Next Payment Due Date" = true) as Hcol
    by reflexivity.
  destruct (tenant_management_view (mkdate 2024 6 10) s Ht Hcol)
    as (s' & Hrun & Hfile & _ & Hre & _).
  split; [exact Ht|]. split; [exact Hcol|]. exists s'.
  split; [exact Hrun|]. split; [exact Hfile|].
  specialize (Hre eq_refl).
  assert (Ok (history_df s')
          = Ok (setitem df "Payment Status" [Str "Overdue"])) as Heq
    by (rewrite <- Hre; vm_compute; reflexivity).
  injection Heq as ->. reflexivity.
Defined.

(** ** Taking back a prediction *)

Lemma delete_last {A} (l : list A) (x : A) :
  delete (length l) (l ++ [x]) = l.
Proof.
  induction l as [|a l IH]; [reflexivity|].
  cbn [length app]. change (delete (S ?n) (a :: ?k)) with (a :: delete n k).
  rewrite IH. reflexivity.
Qed.

(** X15. Deleting the row a prediction has just appended gives the table
    back: on a table labelled 0..n-1 that has every column of the entry (as
    the session history of the earliest version has for its input and rent
    columns, and the loaded history for the seventeen of [main]), the append
    followed by the delete button with index [n] returns the very table
    there was before, labels, columns and cells. *)
Theorem concat_then_delete df n entry :
  table df -> index df = RangeIndex n ->
  (forall col, col ∈ entry.*1 -> has_column df col = true) ->
  delete_from_session (Z.of_nat n) (concat df entry) = Ok df.
Proof.
  intros [Hlen _] Hidx Hall.
  assert (len df = n) as Hn by (unfold len; rewrite Hidx; apply len_RangeIndex).
  unfold delete_from_session, drop, concat. cbn [index columns].
  rewrite Hn.
  assert (existsb (Z.eqb (Z.of_nat n)) (RangeIndex (S n)) = true) as ->
    by (apply existsb_RangeIndex; lia).
  cbn [mbind result_bind]. rewrite filter_none.
  2:{ intros e He Hno. rewrite (Hall e.1) in Hno; [discriminate|].
      apply list_elem_of_fmap_2, He. }
  rewrite fmap_nil, app_nil_r. unfold reset_index, len. cbn [index columns].
  destruct df as [idx cols]. cbn [index columns] in *. subst idx.
  f_equal. f_equal.
  - unfold RangeIndex.
    rewrite keep_seqZ by (rewrite ?length_seqZ; lia).
    rewrite length_delete.
    + rewrite length_seqZ. f_equal. lia.
    + apply lookup_lt_is_Some_2. rewrite length_seqZ. lia.
  - rewrite <- list_fmap_compose. rewrite <- (list_fmap_id cols) at 2.
    apply Forall_fmap_ext. eapply Forall_impl; [exact Hlen|].
    intros [c cells] Hc. unfold len in Hc. cbn [index fst snd compose id] in *.
    rewrite len_RangeIndex in Hc. f_equal. unfold RangeIndex.
    rewrite keep_seqZ by (rewrite ?length_app; cbn [length]; lia).
    replace (Z.to_nat (Z.of_nat n - 0)) with (length cells) by lia.
    apply delete_last.
Qed.

Lemma concat_then_delete_witness :
  let df := mkDataFrame [0]
              [("BHK", [Num 2]); ("City", [Str "Pune"])]%string in
  let entry := [("BHK", Num 3); ("City", Str "Delhi")]%string in
  table df /\ index df = RangeIndex 1 /\
  (forall col, col ∈ entry.*1 -> has_column df col = true) /\
  delete_from_session (Z.of_nat 1) (concat df entry) = Ok df.
Proof.
  intros df entry.
  assert (table df) as Ht.
  { split.
    - repeat constructor.
    - apply (bool_decide_unpack _). reflexivity. }
  assert (index df = RangeIndex 1) as Hidx by reflexivity.
  assert (forall col, col ∈ entry.*1 -> has_column df col = true) as Hall.
  { intros col Hin. apply has_column_names. exact Hin. }
  split; [exact Ht|]. split; [exact Hidx|]. split; [exact Hall|].
  exact (concat_then_delete df 1 entry Ht Hidx Hall).
Defined.
